(** * TPP_TOF: point-of-interest selection for the animatronic eyes

    A shallow embedding of [TPP_TOF.cpp] (Photon firmware, VL53L5CX time of
    flight imager): the calibration read-out of [initTOF],
    [processMeasuredData], [scoreZone], [avgdistZone], [validate], [getPOI]
    and [getPOITemporalFiltered], followed by the properties of the
    specification that concern them.

    Conventions.
    - C [int] / [int32_t] values are integers of [Z].  All quantities handled
      here are bounded by a few multiples of a 16-bit reading, so 32-bit
      arithmetic never wraps; the one explicit narrowing cast of the source,
      [(int16_t) measuredData], is written out as [int16_t].
    - C arrays are [list Z]; [aget] reads and [aset] writes a cell.
    - [for] loops are [for_loop lo hi body]: [body] runs for
      [lo, lo+1, ..., hi-1] and threads the mutated variables.
    - File-scope globals ([calibration], [imageResolution], [imageWidth]) are
      the record [globals]; function-local [static] variables are the record
      [DebounceState], passed explicitly. *)

From Stdlib Require Import ZArith List Bool Lia.
From stdpp Require Import base list strings.
Import ListNotations.

Local Open Scope Z_scope.

(* ------------------------------------------------------------------ *)
(** ** Constants *)

(** [const uint16_t NOISE_RANGE = 50;] *)
Definition NOISE_RANGE : Z := 50.

(** [const uint16_t MAX_CALIBRATION = 2000;] *)
Definition MAX_CALIBRATION : Z := 2000.

(** [#define FRAMES_FOR_GOOD_HIT 2] *)
Definition FRAMES_FOR_GOOD_HIT : Z := 2.

(** The narrowing cast [(int16_t) v] on a two's complement target. *)
Definition int16_t (v : Z) : Z := (v + 32768) mod 65536 - 32768.

(* ------------------------------------------------------------------ *)
(** ** Arrays and loops *)

(** [a[i]]; a read outside the array (undefined in C) yields 0 here, and is
    never relied upon by the theorems below. *)
Definition aget (a : list Z) (i : Z) : Z := nth (Z.to_nat i) a 0.

(** [a[i] = v]; a write outside the array (undefined in C) is dropped. *)
Definition aset (a : list Z) (i : Z) (v : Z) : list Z := <[Z.to_nat i := v]> a.

Fixpoint for_loop_from {S : Type} (n : nat) (i : Z) (body : Z -> S -> S) (s : S) : S :=
  match n with
  | O => s
  | Datatypes.S n' => for_loop_from n' (i + 1) body (body i s)
  end.

(** [for (int i = lo; i < hi; i++) s = body i s;] *)
Definition for_loop {S : Type} (lo hi : Z) (body : Z -> S -> S) (s : S) : S :=
  for_loop_from (Z.to_nat (hi - lo)) lo body s.

(* ------------------------------------------------------------------ *)
(** ** Data *)

(** Modelled from the spec: the driver's result structure
    [VL53L5CX_ResultsData] is declared in the sensor library, not in this
    repository.  Per the specification's RawFrame, a frame maps each cell to a
    distance in millimetres and a small integer status code. *)
Record VL53L5CX_ResultsData : Type := {
  distance_mm : list Z;
  target_status : list Z
}.

(** Modelled from the spec: RawFrame distances are non-negative integers. *)
Definition RawFrame_ok (m : VL53L5CX_ResultsData) : Prop :=
  Forall (fun d => 0 <= d) (distance_mm m).

(** The file-scope variables of [TPP_TOF.cpp]. *)
Record globals : Type := {
  calibration : list Z;      (* int32_t calibration[64] *)
  imageResolution : Z;       (* int imageResolution *)
  imageWidth : Z             (* int imageWidth = sqrt(imageResolution) *)
}.

(* ------------------------------------------------------------------ *)
(** ** initTOF: reading the calibration frame out (lines 133-142) *)

Definition initTOF_cell (m : VL53L5CX_ResultsData) (i : Z) (calibration : list Z) : list Z :=
  let calibration := aset calibration i (aget (distance_mm m) i) in
  if (aget calibration i =? 0) || (aget calibration i >? MAX_CALIBRATION)
  then aset calibration i MAX_CALIBRATION
  else calibration.

(** [measurementData] is the frame the convergence loop read last. *)
Definition initTOF_calibration (measurementData : VL53L5CX_ResultsData)
    (calibration : list Z) : list Z :=
  for_loop 0 64 (initTOF_cell measurementData) calibration.

(* ------------------------------------------------------------------ *)
(** ** processMeasuredData *)

Definition processMeasuredData_cell (g : globals) (measurementData : VL53L5CX_ResultsData)
    (i : Z) (adjustedData : list Z) : list Z :=
  let statusCode := aget (target_status measurementData) i in
  let measuredData := aget (distance_mm measurementData) i in
  if negb (statusCode =? 5) && negb (statusCode =? 9) && negb (statusCode =? 6) then
    aset adjustedData i (-1)
  else if (measuredData =? 0) || (measuredData >? MAX_CALIBRATION) then
    aset adjustedData i (-2)
  else
    let deltaDist := Z.abs (measuredData - aget (calibration g) i) in
    if (deltaDist <=? NOISE_RANGE) || (measuredData >? aget (calibration g) i) then
      aset adjustedData i (-3)
    else
      aset adjustedData i (int16_t measuredData).

Definition processMeasuredData (g : globals) (measurementData : VL53L5CX_ResultsData)
    (adjustedData : list Z) : list Z :=
  for_loop 0 (imageResolution g) (processMeasuredData_cell g measurementData) adjustedData.

(** The classification of the specification, in its words: the four tags and
    the order in which the tests are made. *)
Inductive Classification : Type :=
  | BadStatus
  | OutOfRange
  | Background
  | Valid (distance : Z).

Definition good_status (status : Z) : bool :=
  (status =? 5) || (status =? 6) || (status =? 9).

Definition classify (status distance cal : Z) : Classification :=
  if negb (good_status status) then BadStatus
  else if (distance =? 0) || (distance >? MAX_CALIBRATION) then OutOfRange
  else if (Z.abs (distance - cal) <=? NOISE_RANGE) || (distance >? cal) then Background
  else Valid distance.

(** The integer the firmware stores for a tag. *)
Definition code (c : Classification) : Z :=
  match c with
  | BadStatus => -1
  | OutOfRange => -2
  | Background => -3
  | Valid d => d
  end.

(** Reading a tag back from a stored integer. *)
Definition tag_of (v : Z) : option Classification :=
  if v >? 0 then Some (Valid v)
  else if v =? -1 then Some BadStatus
  else if v =? -2 then Some OutOfRange
  else if v =? -3 then Some Background
  else None.

(* ------------------------------------------------------------------ *)
(** ** scoreZone, avgdistZone, validate *)

(** Returns the number of adjacent zones that have valid distance data. *)
Definition scoreZone (g : globals) (location : Z) (dataArray : list Z) : Z :=
  let locYInit := Z.quot location (imageWidth g) in
  let locXInit := Z.rem location (imageWidth g) in
  for_loop (-1) 2 (fun yIndex score =>
    for_loop (-1) 2 (fun xIndex score =>
      let locX := locXInit + xIndex in
      let locY := locYInit + yIndex in
      if (locX >=? 0) && (locX <? imageWidth g) && (locY >=? 0) && (locY <? imageWidth g) then
        let loc := locY * imageWidth g + locX in
        if aget dataArray loc >? 0 then score + 1 else score
      else score) score) 0.

(** Returns the average of the surrounding valid zones.  The loops thread the
    pair [(totalDist, numZones)]. *)
Definition avgdistZone (g : globals) (location : Z) (distance : list Z) : Z :=
  let locYInit := Z.quot location (imageWidth g) in
  let locXInit := Z.rem location (imageWidth g) in
  let avgDist := aget distance location in
  if aget distance location >? 0 then
    let '(totalDist, numZones) :=
      for_loop (-1) 2 (fun yIndex acc =>
        for_loop (-1) 2 (fun xIndex '(totalDist, numZones) =>
          let locX := locXInit + xIndex in
          let locY := locYInit + yIndex in
          if (locX >=? 0) && (locX <? imageWidth g) && (locY >=? 0) && (locY <? imageWidth g) then
            let loc := locY * imageWidth g + locX in
            if aget distance loc >? 0 then (totalDist + aget distance loc, numZones + 1)
            else (totalDist, numZones)
          else (totalDist, numZones)) acc) (0, 0) in
    Z.quot totalDist numZones
  else avgDist.

(** Decides whether a zone is good enough for focus. *)
Definition validate (score : Z) : bool :=
  let VALID_SCORE_MINIMUM := 3 in
  if score >=? VALID_SCORE_MINIMUM then true else false.

(* ------------------------------------------------------------------ *)
(** ** The point of interest *)

(** Modelled from the spec: [struct pointOfInterest] is declared in
    [TPP_TOF.h], which is not part of the sources at hand.  The fields are
    those [TPP_TOF.cpp] assigns; [surroundingHits] is the specification's
    [neighborSupport]. *)
Module POI.
Record t : Type := mk {
  gotNewSensorData : bool;
  hasDetection : bool;
  x : Z;
  y : Z;
  distanceMM : Z;
  detectedAtMS : Z;
  calibrationDistMM : Z;
  surroundingHits : Z
}.
End POI.

Abbreviation pointOfInterest := POI.t.

(** What one poll of the imager yields: [isDataReady()] false, or
    [getRangingData(&measurementData)] failing, or a frame. *)
Inductive sensor_poll : Type :=
  | DataNotReady
  | RangingFailed
  | RangingData (measurementData : VL53L5CX_ResultsData).

(* ------------------------------------------------------------------ *)
(** ** getPOI *)

(** The test of lines 358-363 for the zone at column [x], row [y]. *)
Definition getPOI_test (g : globals) (adjustedData : list Z) (y x : Z)
    (pPOI : pointOfInterest) : bool :=
  let thisZone := y * imageWidth g + x in
  let avgDistThisZone := avgdistZone g thisZone adjustedData in
  let score := scoreZone g thisZone adjustedData in
  (aget adjustedData thisZone >? 0)
  && validate score
  && (aget adjustedData thisZone <? aget (calibration g) thisZone)
  && (aget adjustedData thisZone <? POI.distanceMM pPOI)
  && (avgDistThisZone >? NOISE_RANGE).

(** The body of the two scanning loops.  [millis k] is what [millis()]
    returns when it is called while zone [k] is examined. *)
Definition getPOI_zone (g : globals) (adjustedData : list Z) (millis : Z -> Z) (y x : Z)
    (pPOI : pointOfInterest) : pointOfInterest :=
  let thisZone := y * imageWidth g + x in
  let score := scoreZone g thisZone adjustedData in
  if getPOI_test g adjustedData y x pPOI then
    {| POI.gotNewSensorData := POI.gotNewSensorData pPOI;
       POI.hasDetection := true;
       POI.x := x;
       POI.y := y;
       POI.distanceMM := aget adjustedData thisZone;
       POI.detectedAtMS := millis thisZone;
       POI.calibrationDistMM := aget (calibration g) thisZone;
       POI.surroundingHits := score |}
  else pPOI.

Definition getPOI_scan (g : globals) (adjustedData : list Z) (millis : Z -> Z)
    (pPOI : pointOfInterest) : pointOfInterest :=
  for_loop 0 (imageWidth g) (fun y pPOI =>
    for_loop 0 (imageWidth g) (fun x pPOI =>
      getPOI_zone g adjustedData millis y x pPOI) pPOI) pPOI.

(** Lines 302-308: every field but [surroundingHits] is reset. *)
Definition getPOI_reset (pPOI : pointOfInterest) : pointOfInterest :=
  {| POI.gotNewSensorData := false;
     POI.hasDetection := false;
     POI.x := -255;
     POI.y := -255;
     POI.distanceMM := -1;
     POI.detectedAtMS := -1;
     POI.calibrationDistMM := -1;
     POI.surroundingHits := POI.surroundingHits pPOI |}.

(** Lines 328-331. *)
Definition getPOI_start (pPOI : pointOfInterest) : pointOfInterest :=
  {| POI.gotNewSensorData := true;
     POI.hasDetection := POI.hasDetection pPOI;
     POI.x := POI.x pPOI;
     POI.y := POI.y pPOI;
     POI.distanceMM := MAX_CALIBRATION + 1;
     POI.detectedAtMS := POI.detectedAtMS pPOI;
     POI.calibrationDistMM := POI.calibrationDistMM pPOI;
     POI.surroundingHits := POI.surroundingHits pPOI |}.

(** The local array [int32_t adjustedData[imageResolution]] is not
    initialised by the source; [processMeasuredData] overwrites every cell of
    it (lemma [processMeasuredData_init] below), so its initial content, taken
    as zeros here, is immaterial. *)
Definition adjustedData_of (g : globals) (measurementData : VL53L5CX_ResultsData) : list Z :=
  processMeasuredData g measurementData (replicate (Z.to_nat (imageResolution g)) 0).

Definition getPOI (g : globals) (poll : sensor_poll) (millis : Z -> Z)
    (pPOI : pointOfInterest) : pointOfInterest :=
  let pPOI := getPOI_reset pPOI in
  match poll with
  | RangingData measurementData =>
      let pPOI := getPOI_start pPOI in
      let adjustedData := adjustedData_of g measurementData in
      getPOI_scan g adjustedData millis pPOI
  | DataNotReady | RangingFailed => pPOI
  end.

(* ------------------------------------------------------------------ *)
(** ** getPOITemporalFiltered *)

(** The function's [static] locals.  [sequentialFramesWithHit] is a C [int];
    it is only ever incremented by one per frame, and is taken here as an
    unbounded integer. *)
Record DebounceState : Type := {
  waitingFirstDetection : bool;
  sequentialFramesWithHit : Z;
  currentX : Z;
  currentY : Z;
  suppressedX : Z;
  suppressedY : Z
}.

(** The initialisers of the [static] declarations. *)
Definition DebounceState_init : DebounceState :=
  {| waitingFirstDetection := true;
     sequentialFramesWithHit := 0;
     currentX := -1;
     currentY := -1;
     suppressedX := -1;
     suppressedY := -1 |}.

Definition set_hasDetection (b : bool) (pPOI : pointOfInterest) : pointOfInterest :=
  {| POI.gotNewSensorData := POI.gotNewSensorData pPOI;
     POI.hasDetection := b;
     POI.x := POI.x pPOI;
     POI.y := POI.y pPOI;
     POI.distanceMM := POI.distanceMM pPOI;
     POI.detectedAtMS := POI.detectedAtMS pPOI;
     POI.calibrationDistMM := POI.calibrationDistMM pPOI;
     POI.surroundingHits := POI.surroundingHits pPOI |}.

(** Lines 430-495: what happens to the statics and to [*pPOI] once [getPOI]
    has filled [*pPOI] in. *)
Definition temporalFilter (st : DebounceState) (pPOI : pointOfInterest)
    : DebounceState * pointOfInterest :=
  let isPersistentDetection := false in
  if negb (POI.gotNewSensorData pPOI) then
    (* EARLY RETURN: did not get new sensor data *)
    (st, pPOI)
  else if negb (POI.hasDetection pPOI) then
    ({| waitingFirstDetection := true;
        sequentialFramesWithHit := sequentialFramesWithHit st;
        currentX := currentX st;
        currentY := currentY st;
        suppressedX := suppressedX st;
        suppressedY := suppressedY st |}, pPOI)
  else
    let st :=
      if waitingFirstDetection st then
        {| waitingFirstDetection := false;
           sequentialFramesWithHit := 0;
           currentX := POI.x pPOI;
           currentY := POI.y pPOI;
           suppressedX := -1;
           suppressedY := -1 |}
      else st in
    (* allow some spatial jitter *)
    let spatialDistX := 0 in  (* currentX - pPOI->x *)
    let spatialDistY := 0 in  (* currentY - pPOI->y *)
    let st :=
      if (spatialDistX <? 2) && (spatialDistY <? 2) then
        {| waitingFirstDetection := waitingFirstDetection st;
           sequentialFramesWithHit := sequentialFramesWithHit st + 1;
           currentX := currentX st;
           currentY := currentY st;
           suppressedX := suppressedX st;
           suppressedY := suppressedY st |}
      else
        {| waitingFirstDetection := waitingFirstDetection st;
           sequentialFramesWithHit := 1;
           currentX := POI.x pPOI;
           currentY := POI.y pPOI;
           suppressedX := suppressedX st;
           suppressedY := suppressedY st |} in
    let isPersistentDetection :=
      if sequentialFramesWithHit st >=? FRAMES_FOR_GOOD_HIT then true
      else isPersistentDetection in
    if isPersistentDetection then (st, pPOI)
    else
      let pPOI := set_hasDetection false pPOI in
      let st :=
        if negb (suppressedX st =? POI.x pPOI) && negb (suppressedY st =? POI.y pPOI) then
          {| waitingFirstDetection := waitingFirstDetection st;
             sequentialFramesWithHit := sequentialFramesWithHit st;
             currentX := currentX st;
             currentY := currentY st;
             suppressedX := POI.x pPOI;
             suppressedY := POI.y pPOI |}
        else st in
      (st, pPOI).

Definition getPOITemporalFiltered (g : globals) (poll : sensor_poll) (millis : Z -> Z)
    (st : DebounceState) (pPOI : pointOfInterest) : DebounceState * pointOfInterest :=
  temporalFilter st (getPOI g poll millis pPOI).

(** A cycle is one call by the application: what the imager answers and what
    the clock shows. *)
Definition cycle : Type := sensor_poll * (Z -> Z).

(** The application calls [getPOITemporalFiltered] once per cycle on the same
    [pointOfInterest] structure. *)
Fixpoint run (g : globals) (cycles : list cycle) (st : DebounceState) (pPOI : pointOfInterest)
    : DebounceState * pointOfInterest :=
  match cycles with
  | [] => (st, pPOI)
  | (poll, millis) :: rest =>
      let '(st', pPOI') := getPOITemporalFiltered g poll millis st pPOI in
      run g rest st' pPOI'
  end.

(* ------------------------------------------------------------------ *)
(** ** Auxiliary definitions used in the statements *)

(** What [initTOF] leaves in a calibration cell whose raw reading is [d]. *)
Definition initTOF_value (d : Z) : Z :=
  if (d =? 0) || (d >? MAX_CALIBRATION) then MAX_CALIBRATION else d.

(** What [processMeasuredData] stores for cell [i]. *)
Definition processMeasuredData_value (g : globals) (m : VL53L5CX_ResultsData) (i : Z) : Z :=
  let statusCode := aget (target_status m) i in
  let measuredData := aget (distance_mm m) i in
  if negb (statusCode =? 5) && negb (statusCode =? 9) && negb (statusCode =? 6) then -1
  else if (measuredData =? 0) || (measuredData >? MAX_CALIBRATION) then -2
  else if (Z.abs (measuredData - aget (calibration g) i) <=? NOISE_RANGE)
          || (measuredData >? aget (calibration g) i) then -3
  else int16_t measuredData.

(** Row-major scan order on cells: row [y] ascending, then column [x]. *)
Definition before (y1 x1 y2 x2 : Z) : Prop :=
  y1 < y2 \/ (y1 = y2 /\ x1 < x2).

(** Cell [(x, y)] lies on the grid. *)
Definition on_grid (g : globals) (y x : Z) : Prop :=
  0 <= x < imageWidth g /\ 0 <= y < imageWidth g.

(** The conditions of lines 358-363 that depend on the zone alone: a valid
    reading, enough valid neighbours, closer than the calibration frame, and
    a neighbourhood average above the noise range.  The remaining condition
    compares with the running closest distance. *)
Definition qualifies (g : globals) (adjustedData : list Z) (y x : Z) : bool :=
  let thisZone := y * imageWidth g + x in
  (aget adjustedData thisZone >? 0)
  && validate (scoreZone g thisZone adjustedData)
  && (aget adjustedData thisZone <? aget (calibration g) thisZone)
  && (avgdistZone g thisZone adjustedData >? NOISE_RANGE).

(** The test of lines 358-363 with the comparison against the calibration
    frame (line 360) left out. *)
Definition getPOI_test_without_calibration (g : globals) (adjustedData : list Z) (y x : Z)
    (pPOI : pointOfInterest) : bool :=
  let thisZone := y * imageWidth g + x in
  let avgDistThisZone := avgdistZone g thisZone adjustedData in
  let score := scoreZone g thisZone adjustedData in
  (aget adjustedData thisZone >? 0)
  && validate score
  && (aget adjustedData thisZone <? POI.distanceMM pPOI)
  && (avgDistThisZone >? NOISE_RANGE).

(** Invariant of the scan, when it is about to examine cell [(x, y)] having
    started from [p0]: either nothing was selected and [*pPOI] is as it was,
    or the selected cell was examined earlier, satisfies the zone
    conditions, and the fields record its data. *)
Definition scan_selected (g : globals) (adjustedData : list Z) (p0 : pointOfInterest)
    (y x : Z) (p : pointOfInterest) : Prop :=
  (POI.hasDetection p = false -> p = p0) /\
  (POI.hasDetection p = true ->
     on_grid g (POI.y p) (POI.x p) /\
     before (POI.y p) (POI.x p) y x /\
     qualifies g adjustedData (POI.y p) (POI.x p) = true /\
     POI.distanceMM p = aget adjustedData (POI.y p * imageWidth g + POI.x p) /\
     POI.surroundingHits p = scoreZone g (POI.y p * imageWidth g + POI.x p) adjustedData).

(** Second invariant of the scan: the selected cell is the closest of the
    zones examined so far that satisfy the zone conditions, and the earliest
    of the closest ones. *)
Definition scan_best (g : globals) (adjustedData : list Z) (y x : Z)
    (p : pointOfInterest) : Prop :=
  forall y' x',
    on_grid g y' x' -> before y' x' y x -> qualifies g adjustedData y' x' = true ->
    POI.hasDetection p = true /\
    POI.distanceMM p <= aget adjustedData (y' * imageWidth g + x') /\
    (POI.distanceMM p = aget adjustedData (y' * imageWidth g + x') ->
     ~ before y' x' (POI.y p) (POI.x p)).

(** The ZoneValidator support of the specification, in its words: the number
    of cells of the 3x3 neighbourhood centred on [(x, y)], the cell itself
    included, that lie on the grid and are classified Valid. *)
Definition neighbourhood (y x : Z) : list (Z * Z) :=
  flat_map (fun yIndex => map (fun xIndex => (y + yIndex, x + xIndex)) [-1; 0; 1]) [-1; 0; 1].

Definition valid_zone (g : globals) (adjustedData : list Z) (c : Z * Z) : bool :=
  let '(locY, locX) := c in
  (locX >=? 0) && (locX <? imageWidth g) && (locY >=? 0) && (locY <? imageWidth g)
  && (aget adjustedData (locY * imageWidth g + locX) >? 0).

Definition support (g : globals) (adjustedData : list Z) (y x : Z) : Z :=
  Z.of_nat (length (List.filter (valid_zone g adjustedData) (neighbourhood y x))).

(** ** Example data: an 8x8 imager calibrated at one metre *)

Definition example_globals : globals :=
  {| calibration := replicate 64 1000;
     imageResolution := 64;
     imageWidth := 8 |}.

(** A frame with good status everywhere, reading the calibration distance
    except at the listed cells. *)
Definition example_frame (readings : list (Z * Z)) : VL53L5CX_ResultsData :=
  {| distance_mm := fold_left (fun a '(k, d) => aset a k d) readings (replicate 64 1000);
     target_status := replicate 64 5 |}.

(** The unchanged scene. *)
Definition frame_empty : VL53L5CX_ResultsData := example_frame [].

(** Something 0.4 m away in the corner x = 0, y = 0. *)
Definition frame_near_origin : VL53L5CX_ResultsData :=
  example_frame [(0, 400); (1, 400); (8, 400)].

(** Something 0.3 m away in the opposite corner x = 7, y = 7. *)
Definition frame_far_corner : VL53L5CX_ResultsData :=
  example_frame [(63, 300); (62, 400); (55, 400)].

(** Two equally close zones, at x = 1, y = 1 and at x = 5, y = 1. *)
Definition frame_tie : VL53L5CX_ResultsData :=
  example_frame [(9, 300); (8, 400); (10, 400); (13, 300); (12, 400); (14, 400)].

Definition example_clock : Z -> Z := fun _ => 1000.

Definition example_POI : pointOfInterest :=
  {| POI.gotNewSensorData := false;
     POI.hasDetection := false;
     POI.x := 0;
     POI.y := 0;
     POI.distanceMM := 0;
     POI.detectedAtMS := 0;
     POI.calibrationDistMM := 0;
     POI.surroundingHits := 0 |}.

(** ** Cycles as the temporal filter sees them *)

(** Two structures that agree on every field but [surroundingHits], the one
    field [getPOI] does not reset. *)
Definition same_but_hits (p q : pointOfInterest) : Prop :=
  POI.gotNewSensorData p = POI.gotNewSensorData q /\
  POI.hasDetection p = POI.hasDetection q /\
  POI.x p = POI.x q /\
  POI.y p = POI.y q /\
  POI.distanceMM p = POI.distanceMM q /\
  POI.detectedAtMS p = POI.detectedAtMS q /\
  POI.calibrationDistMM p = POI.calibrationDistMM q.

Inductive outcome : Type :=
  | NoNewData      (* the imager had no frame, or reading it failed *)
  | NoDetection    (* a frame, and getPOI selected nothing *)
  | Detection.     (* a frame, and getPOI selected a zone *)

(** What [getPOI] makes of a cycle.  The structure passed in plays no part
    (lemma [getPOI_outcome]); a reset one is used. *)
Definition raw_outcome (g : globals) (c : cycle) : outcome :=
  let r := getPOI g (fst c) (snd c) (getPOI_reset example_POI) in
  if negb (POI.gotNewSensorData r) then NoNewData
  else if POI.hasDetection r then Detection
  else NoDetection.

(** The statics after a frame without detection (line 439). *)
Definition set_waitingFirstDetection (st : DebounceState) : DebounceState :=
  {| waitingFirstDetection := true;
     sequentialFramesWithHit := sequentialFramesWithHit st;
     currentX := currentX st;
     currentY := currentY st;
     suppressedX := suppressedX st;
     suppressedY := suppressedY st |}.

(** The statics after two consecutive detections in the corner x = 0, y = 0. *)
Definition example_tracking : DebounceState :=
  {| waitingFirstDetection := false;
     sequentialFramesWithHit := 2;
     currentX := 0;
     currentY := 0;
     suppressedX := 0;
     suppressedY := 0 |}.

(** What [getPOI] returns in the cycles without new data. *)
Definition POI_no_new_data (surroundingHits : Z) : pointOfInterest :=
  {| POI.gotNewSensorData := false;
     POI.hasDetection := false;
     POI.x := -255;
     POI.y := -255;
     POI.distanceMM := -1;
     POI.detectedAtMS := -1;
     POI.calibrationDistMM := -1;
     POI.surroundingHits := surroundingHits |}.

(* ------------------------------------------------------------------ *)
(** ** initTOF: waiting for two similar frames (lines 84-127) *)

(** The locals of the search, and the global [measurementData] the imager
    writes a frame into. *)
Record calibration_search : Type := {
  gotSimilarFrames : bool;
  frameCount : Z;
  sumOfDistances : Z;
  lastFrameSum : Z;
  measurementData : VL53L5CX_ResultsData
}.

(** Lines 95-98; the global [measurementData] is zero-initialised. *)
Definition calibration_search_init : calibration_search :=
  {| gotSimilarFrames := false;
     frameCount := 0;
     sumOfDistances := 0;
     lastFrameSum := 0;
     measurementData := {| distance_mm := replicate 64 0; target_status := replicate 64 0 |} |}.

(** Lines 103-106. *)
Definition sum_of_distances (imageResolution : Z) (m : VL53L5CX_ResultsData) : Z :=
  for_loop 0 imageResolution (fun i sumOfDistances => sumOfDistances + aget (distance_mm m) i) 0.

(** One turn of the [do ... while (!gotSimilarFrames)] loop, given what the
    imager answers.  A failed read is taken to leave [measurementData] as it
    was. *)
Definition initTOF_iteration (imageResolution : Z) (poll : sensor_poll)
    (st : calibration_search) : calibration_search :=
  let st :=
    match poll with
    | RangingData m =>
        let frameCount := frameCount st + 1 in
        let sumOfDistances := sum_of_distances imageResolution m in
        if Z.abs (lastFrameSum st - sumOfDistances) <? 500 then
          {| gotSimilarFrames := true;
             frameCount := frameCount;
             sumOfDistances := sumOfDistances;
             lastFrameSum := lastFrameSum st;
             measurementData := m |}
        else
          {| gotSimilarFrames := gotSimilarFrames st;
             frameCount := frameCount;
             sumOfDistances := sumOfDistances;
             lastFrameSum := sumOfDistances;
             measurementData := m |}
    | DataNotReady | RangingFailed => st
    end in
  if frameCount st >? 500 then
    {| gotSimilarFrames := true;
       frameCount := frameCount st;
       sumOfDistances := sumOfDistances st;
       lastFrameSum := lastFrameSum st;
       measurementData := measurementData st |}
  else st.

(** The loop itself.  The answers of the imager are consumed one per turn;
    [None] means that the loop is still running when they are used up. *)
Fixpoint initTOF_search (imageResolution : Z) (polls : list sensor_poll)
    (st : calibration_search) : option calibration_search :=
  match polls with
  | [] => None
  | poll :: rest =>
      let st' := initTOF_iteration imageResolution poll st in
      if gotSimilarFrames st' then Some st'
      else initTOF_search imageResolution rest st'
  end.

(** Lines 87-90: [do { delay(5); } while (myImager.isDataReady() != true)].
    Asking whether data is ready does not take the frame away. *)
Fixpoint wait_data_ready (polls : list sensor_poll) : option (list sensor_poll) :=
  match polls with
  | [] => None
  | DataNotReady :: rest => wait_data_ready rest
  | RangingFailed :: _ | RangingData _ :: _ => Some polls
  end.

(** The imager as [initTOF] sees it: whether [begin()] succeeds, what
    [getResolution()] returns, and its answers to the successive polls. *)
Record imager : Type := {
  imager_begin : bool;
  imager_resolution : Z;
  imager_polls : list sensor_poll
}.

(** [initTOF], from the content [calibration] had before.  [None]: the
    function does not return (sensor not found, lines 58-63, or a loop still
    running when the answers are used up). *)
Definition initTOF (im : imager) (calibration0 : list Z) : option globals :=
  if negb (imager_begin im) then None
  else
    let imageResolution := imager_resolution im in
    let imageWidth := Z.sqrt imageResolution in
    match wait_data_ready (imager_polls im) with
    | None => None
    | Some polls =>
        match initTOF_search imageResolution polls calibration_search_init with
        | None => None
        | Some st =>
            Some {| calibration := initTOF_calibration (measurementData st) calibration0;
                    imageResolution := imageResolution;
                    imageWidth := imageWidth |}
        end
    end.

(** The frames among the answers, in order, and the sum of the last one. *)
Definition frames_of (polls : list sensor_poll) : list VL53L5CX_ResultsData :=
  flat_map (fun poll => match poll with RangingData m => [m] | _ => [] end) polls.

Definition last_sum (imageResolution : Z) (frames : list VL53L5CX_ResultsData) : Z :=
  match rev frames with
  | [] => 0
  | m :: _ => sum_of_distances imageResolution m
  end.

(** Answers among which the frames alternate between two scenes whose sums
    of distances differ by 1800 mm. *)
Definition restless_polls (n : nat) : list sensor_poll :=
  flat_map (fun _ => [RangingData frame_empty; DataNotReady; RangingData frame_near_origin])
           (seq 0 n).

(** A frame reading 5 mm everywhere: its distances sum to 320 mm. *)
Definition frame_touching : VL53L5CX_ResultsData :=
  {| distance_mm := replicate 64 5; target_status := replicate 64 5 |}.

(** The sum and the number of the valid readings of a list of cells: what the
    loops of [avgdistZone] accumulate in [(totalDist, numZones)]. *)
Definition valid_total (g : globals) (adjustedData : list Z) (cells : list (Z * Z))
    (acc : Z * Z) : Z * Z :=
  fold_left (fun '(totalDist, numZones) c =>
               if valid_zone g adjustedData c
               then (totalDist + aget adjustedData (fst c * imageWidth g + snd c), numZones + 1)
               else (totalDist, numZones)) cells acc.

(** The offsets [(yIndex, xIndex)] in the order the loops of [scoreZone] and
    [avgdistZone] visit them. *)
Definition neighbour_offsets : list (Z * Z) :=
  [(-1, -1); (-1, 0); (-1, 1); (0, -1); (0, 0); (0, 1); (1, -1); (1, 0); (1, 1)].


(* ------------------------------------------------------------------ *)
(** ** prettyPrint *)

(** What is written to the serial port, call by call: [Serial.print(s)],
    [Serial.printf(format, arg)] and [Serial.println()]. *)
Inductive serial_event : Type :=
  | Serial_print (s : string)
  | Serial_printf (format : string) (arg : Z)
  | Serial_println.

Definition TAB : string := String (Ascii.ascii_of_nat 9) EmptyString.

Fixpoint for_down_from {S : Type} (n : nat) (i : Z) (body : Z -> S -> S) (s : S) : S :=
  match n with
  | O => s
  | Datatypes.S n' => for_down_from n' (i - 1) body (body i s)
  end.

(** [for (int i = hi; i >= 0; i--) s = body i s;] *)
Definition for_down {S : Type} (hi : Z) (body : Z -> S -> S) (s : S) : S :=
  for_down_from (Z.to_nat (hi + 1)) hi body s.

(** The body of the loop over the rows (lines 514-520); [y] is the index of
    the first cell of the row.  The state is [lines] and what has been
    written so far. *)
Definition prettyPrint_row (g : globals) (dataArray : list Z) (y : Z)
    (st : Z * list serial_event) : Z * list serial_event :=
  let '(lines, out) := st in
  let out := out ++ [Serial_print TAB] in
  let out := out ++ [Serial_printf "%-5i:  " (Z.quot y (imageWidth g))] in
  let out := for_down (imageWidth g - 1) (fun x out =>
               out ++ [Serial_printf "%-5ld" (aget dataArray (x + y))]) out in
  let out := out ++ [Serial_println] in
  (lines + 1, out).

(** [for (int y = 0; y <= imageWidth * (imageWidth - 1); y += imageWidth)].
    The step is not a constant of the program, so the loop is given fuel;
    [None] means that it is still running when the fuel is used up. *)
Fixpoint prettyPrint_rows (fuel : nat) (g : globals) (dataArray : list Z) (y : Z)
    (st : Z * list serial_event) : option (Z * list serial_event) :=
  match fuel with
  | O => None
  | Datatypes.S fuel' =>
      if y <=? imageWidth g * (imageWidth g - 1) then
        prettyPrint_rows fuel' g dataArray (y + imageWidth g) (prettyPrint_row g dataArray y st)
      else Some st
  end.

(** [prettyPrint]: the number of lines it returns and what the serial port
    has received, [out] being what it had received before. *)
Definition prettyPrint (fuel : nat) (g : globals) (dataArray : list Z)
    (out : list serial_event) : option (Z * list serial_event) :=
  let lines := 0 in
  let out := out ++ [Serial_print (String (Ascii.ascii_of_nat 9) "        ")] in
  let out := for_down (imageWidth g - 1) (fun i out => out ++ [Serial_printf "%-5i" i]) out in
  let out := out ++ [Serial_println] in
  let lines := lines + 1 in
  prettyPrint_rows fuel g dataArray 0 (lines, out).

(** The number of [println] calls, and the values printed as data. *)
Definition newlines (out : list serial_event) : Z :=
  Z.of_nat (length (List.filter
    (fun e => match e with Serial_println => true | _ => false end) out)).

Definition printed_data (out : list serial_event) : list Z :=
  flat_map (fun e => match e with
                     | Serial_printf format arg =>
                         if String.eqb format "%-5ld" then [arg] else []
                     | _ => []
                     end) out.

(** [i, i-1, ...], [n] numbers; [r, r+1, ...], [k] numbers. *)
Fixpoint down_from (n : nat) (i : Z) : list Z :=
  match n with
  | O => []
  | Datatypes.S n' => i :: down_from n' (i - 1)
  end.

Fixpoint up_from (k : nat) (r : Z) : list Z :=
  match k with
  | O => []
  | Datatypes.S k' => r :: up_from k' (r + 1)
  end.

(** What [prettyPrint_row] writes for the row that starts at cell [y]. *)
Definition row_events (g : globals) (dataArray : list Z) (y : Z) : list serial_event :=
  [Serial_print TAB; Serial_printf "%-5i:  " (Z.quot y (imageWidth g))]
  ++ map (fun x => Serial_printf "%-5ld" (aget dataArray (x + y)))
         (down_from (Z.to_nat (imageWidth g)) (imageWidth g - 1))
  ++ [Serial_println].

(* ------------------------------------------------------------------ *)
(** ** TPP_Animatronic_Global.h: the events reported by the eyes code *)

Inductive TOF_detect : Type :=
  | No_event
  | No_change_in_fov
  | Person_entered_fov
  | Person_left_fov
  | Person_too_close
  | Person_left_quickly
  | Puppet_is_ready.

(** The enumerators' values. *)
Definition TOF_detect_value (e : TOF_detect) : Z :=
  match e with
  | No_event => -1
  | No_change_in_fov => 0
  | Person_entered_fov => 1
  | Person_left_fov => 2
  | Person_too_close => 3
  | Person_left_quickly => 4
  | Puppet_is_ready => 5
  end.

(** [#define NUM_TOF_EVENTS 6] *)
Definition NUM_TOF_EVENTS : Z := 6.

(** ** More example data *)

(** Answers of the imager during calibration: a first frame, then twice the
    same other scene. *)
Definition example_calibration_polls : list sensor_poll :=
  [DataNotReady; RangingData frame_empty; RangingFailed;
   RangingData frame_near_origin; RangingData frame_near_origin; RangingData frame_tie].

Definition example_search_result : calibration_search :=
  Eval vm_compute in
    match initTOF_search 64 example_calibration_polls calibration_search_init with
    | Some st => st
    | None => calibration_search_init
    end.

Definition example_imager : imager :=
  {| imager_begin := true;
     imager_resolution := 64;
     imager_polls := example_calibration_polls |}.

Definition example_initTOF_result : globals :=
  Eval vm_compute in
    match initTOF example_imager (replicate 64 0) with
    | Some g => g
    | None => example_globals
    end.

(* ================================================================== *)
(** * Properties *)

(** ** Loops and arrays *)

Lemma for_loop_from_ind {S : Type} (P : Z -> S -> Prop) (body : Z -> S -> S) :
  forall (n : nat) (i : Z) (s : S),
    P i s ->
    (forall k t, i <= k < i + Z.of_nat n -> P k t -> P (k + 1) (body k t)) ->
    P (i + Z.of_nat n) (for_loop_from n i body s).
Proof.
  induction n as [|n IH]; intros i s Hs Hstep; simpl for_loop_from.
  - replace (i + Z.of_nat 0) with i by lia. exact Hs.
  - replace (i + Z.of_nat (Datatypes.S n)) with ((i + 1) + Z.of_nat n) by lia.
    apply IH.
    + apply Hstep; [lia | exact Hs].
    + intros k t Hk. apply Hstep. lia.
Qed.

(** The usual rule for a counted loop: an invariant indexed by the counter. *)
Lemma for_loop_ind {S : Type} (P : Z -> S -> Prop) (lo hi : Z) (body : Z -> S -> S) (s : S) :
  lo <= hi ->
  P lo s ->
  (forall k t, lo <= k < hi -> P k t -> P (k + 1) (body k t)) ->
  P hi (for_loop lo hi body s).
Proof.
  intros Hle Hs Hstep. unfold for_loop.
  replace hi with (lo + Z.of_nat (Z.to_nat (hi - lo))) at 1 by lia.
  apply for_loop_from_ind; [exact Hs|].
  intros k t Hk. apply Hstep. lia.
Qed.

Lemma for_loop_empty {S : Type} (lo hi : Z) (body : Z -> S -> S) (s : S) :
  hi <= lo -> for_loop lo hi body s = s.
Proof.
  intros H. unfold for_loop. replace (Z.to_nat (hi - lo)) with O by lia. reflexivity.
Qed.

Lemma length_aset (a : list Z) (i v : Z) : length (aset a i v) = length a.
Proof. unfold aset. apply length_insert. Qed.

Lemma aget_aset_eq (a : list Z) (i v : Z) :
  0 <= i < Z.of_nat (length a) -> aget (aset a i v) i = v.
Proof.
  intros Hi. unfold aget, aset. rewrite nth_lookup.
  rewrite list_lookup_insert_eq by lia. reflexivity.
Qed.

Lemma aget_aset_ne (a : list Z) (i j v : Z) :
  0 <= i -> 0 <= j -> i <> j -> aget (aset a i v) j = aget a j.
Proof.
  intros Hi Hj Hne. unfold aget, aset. rewrite !nth_lookup.
  rewrite list_lookup_insert_ne by lia. reflexivity.
Qed.

Lemma aget_replicate (n : nat) (v i : Z) : aget (replicate n v) i = v \/ aget (replicate n v) i = 0.
Proof.
  unfold aget. rewrite nth_lookup.
  destruct (replicate n v !! Z.to_nat i) as [w|] eqn:E; simpl; [|right; reflexivity].
  apply lookup_replicate in E. left. tauto.
Qed.

(** A loop that stores [f i] into cell [i] for each [i] fills the array with
    [f], whatever it held before. *)
Lemma for_loop_fill (f : Z -> Z) (body : Z -> list Z -> list Z) (n : Z) (a : list Z) :
  (forall i b, 0 <= i < Z.of_nat (length b) -> body i b = aset b i (f i)) ->
  0 <= n <= Z.of_nat (length a) ->
  let r := for_loop 0 n body a in
  length r = length a /\
  (forall j, 0 <= j < n -> aget r j = f j) /\
  (forall j, n <= j -> aget r j = aget a j).
Proof.
  intros Hbody Hn r. subst r.
  apply (for_loop_ind (fun k b =>
           length b = length a /\
           (forall j, 0 <= j < k -> aget b j = f j) /\
           (forall j, k <= j -> aget b j = aget a j))).
  - lia.
  - split; [reflexivity | split; intros; [lia | reflexivity]].
  - intros k b Hk (Hlen & Hlow & Hhigh). rewrite Hbody by lia. repeat split.
    + rewrite length_aset. exact Hlen.
    + intros j Hj. destruct (Z.eq_dec j k) as [->|Hne].
      * apply aget_aset_eq. lia.
      * rewrite aget_aset_ne by lia. apply Hlow. lia.
    + intros j Hj. rewrite aget_aset_ne by lia. apply Hhigh. lia.
Qed.

Lemma aget_nonneg (a : list Z) (i : Z) :
  Forall (fun d => 0 <= d) a -> 0 <= aget a i.
Proof.
  intros H. unfold aget. rewrite nth_lookup.
  destruct (a !! Z.to_nat i) as [d|] eqn:E; simpl; [|lia].
  rewrite Forall_lookup in H. exact (H _ _ E).
Qed.

Lemma int16_t_small (v : Z) : -32768 <= v <= 32767 -> int16_t v = v.
Proof. intros H. unfold int16_t. rewrite Z.mod_small by lia. lia. Qed.

(** ** Calibration read-out *)

Lemma initTOF_cell_stores (m : VL53L5CX_ResultsData) (i : Z) (c : list Z) :
  0 <= i < Z.of_nat (length c) ->
  initTOF_cell m i c = aset c i (initTOF_value (aget (distance_mm m) i)).
Proof.
  intros Hi. unfold initTOF_cell, initTOF_value.
  rewrite aget_aset_eq by exact Hi.
  destruct ((aget (distance_mm m) i =? 0) || (aget (distance_mm m) i >? MAX_CALIBRATION)).
  - unfold aset. rewrite list_insert_insert_eq. reflexivity.
  - reflexivity.
Qed.

Lemma initTOF_calibration_cell (m : VL53L5CX_ResultsData) (c : list Z) (i : Z) :
  length c = 64%nat -> 0 <= i < 64 ->
  aget (initTOF_calibration m c) i = initTOF_value (aget (distance_mm m) i).
Proof.
  intros Hlen Hi. unfold initTOF_calibration.
  destruct (for_loop_fill (fun k => initTOF_value (aget (distance_mm m) k))
              (initTOF_cell m) 64 c) as (_ & H & _).
  - intros k b Hk. apply initTOF_cell_stores. exact Hk.
  - rewrite Hlen. lia.
  - apply H. exact Hi.
Qed.

(** ** Classification *)

Lemma processMeasuredData_cell_stores (g : globals) (m : VL53L5CX_ResultsData)
    (i : Z) (a : list Z) :
  processMeasuredData_cell g m i a = aset a i (processMeasuredData_value g m i).
Proof.
  unfold processMeasuredData_cell, processMeasuredData_value.
  repeat match goal with |- context [if ?b then _ else _] => destruct b end; reflexivity.
Qed.

Lemma processMeasuredData_cell_value (g : globals) (m : VL53L5CX_ResultsData)
    (a0 : list Z) (i : Z) :
  Z.of_nat (length a0) = imageResolution g ->
  0 <= i < imageResolution g ->
  aget (processMeasuredData g m a0) i = processMeasuredData_value g m i.
Proof.
  intros Hlen Hi. unfold processMeasuredData.
  destruct (for_loop_fill (processMeasuredData_value g m)
              (processMeasuredData_cell g m) (imageResolution g) a0) as (_ & H & _).
  - intros k b _. apply processMeasuredData_cell_stores.
  - lia.
  - apply H. exact Hi.
Qed.

Lemma processMeasuredData_length (g : globals) (m : VL53L5CX_ResultsData) (a0 : list Z) :
  0 <= imageResolution g <= Z.of_nat (length a0) ->
  length (processMeasuredData g m a0) = length a0.
Proof.
  intros H. unfold processMeasuredData.
  destruct (for_loop_fill (processMeasuredData_value g m)
              (processMeasuredData_cell g m) (imageResolution g) a0) as (L & _ & _).
  - intros k b _. apply processMeasuredData_cell_stores.
  - exact H.
  - exact L.
Qed.

(** The initial content of the output array does not matter. *)
Lemma processMeasuredData_init (g : globals) (m : VL53L5CX_ResultsData) (a0 a1 : list Z) :
  Z.of_nat (length a0) = imageResolution g ->
  Z.of_nat (length a1) = imageResolution g ->
  processMeasuredData g m a0 = processMeasuredData g m a1.
Proof.
  intros H0 H1. unfold processMeasuredData.
  destruct (for_loop_fill (processMeasuredData_value g m)
              (processMeasuredData_cell g m) (imageResolution g) a0) as (L0 & V0 & _);
    [intros; apply processMeasuredData_cell_stores | lia |].
  destruct (for_loop_fill (processMeasuredData_value g m)
              (processMeasuredData_cell g m) (imageResolution g) a1) as (L1 & V1 & _);
    [intros; apply processMeasuredData_cell_stores | lia |].
  apply list_eq. intros k.
  destruct (decide (k < length a0)%nat) as [Hk|Hk].
  - assert (Hk0 : 0 <= Z.of_nat k < imageResolution g) by lia.
    pose proof (V0 _ Hk0) as E0. pose proof (V1 _ Hk0) as E1.
    unfold aget in E0, E1. rewrite Nat2Z.id, nth_lookup in E0, E1.
    destruct (lookup_lt_is_Some_2 (for_loop 0 (imageResolution g)
                (processMeasuredData_cell g m) a0) k) as [v0 Ev0]; [lia|].
    destruct (lookup_lt_is_Some_2 (for_loop 0 (imageResolution g)
                (processMeasuredData_cell g m) a1) k) as [v1 Ev1]; [lia|].
    rewrite Ev0 in E0 |- *. rewrite Ev1 in E1 |- *. simpl in E0, E1. congruence.
  - rewrite !lookup_ge_None_2 by lia. reflexivity.
Qed.

(** The stored value is the code of the specification's tag. *)
Lemma processMeasuredData_value_classify (g : globals) (m : VL53L5CX_ResultsData) (i : Z) :
  0 <= aget (distance_mm m) i ->
  processMeasuredData_value g m i =
  code (classify (aget (target_status m) i) (aget (distance_mm m) i) (aget (calibration g) i)).
Proof.
  intros Hd. unfold processMeasuredData_value, classify, good_status, MAX_CALIBRATION.
  set (s := aget (target_status m) i). set (d := aget (distance_mm m) i) in *.
  set (c := aget (calibration g) i).
  destruct (s =? 5) eqn:E5; destruct (s =? 9) eqn:E9; destruct (s =? 6) eqn:E6;
    simpl; try reflexivity;
    (destruct ((d =? 0) || (d >? 2000)) eqn:Er; simpl; [reflexivity|];
     destruct ((Z.abs (d - c) <=? NOISE_RANGE) || (d >? c)); simpl; [reflexivity|];
     apply int16_t_small; apply orb_false_iff in Er; lia).
Qed.

Lemma tag_of_code_classify (s d c : Z) :
  0 <= d -> tag_of (code (classify s d c)) = Some (classify s d c).
Proof.
  intros Hd. unfold classify, MAX_CALIBRATION.
  destruct (negb (good_status s)); [reflexivity|].
  destruct ((d =? 0) || (d >? 2000)) eqn:Er; [reflexivity|].
  destruct ((Z.abs (d - c) <=? NOISE_RANGE) || (d >? c)); [reflexivity|].
  simpl. unfold tag_of. apply orb_false_iff in Er.
  replace (d >? 0) with true by lia. reflexivity.
Qed.

(** C1. Every cell of a raw frame gets exactly one tag, decided in this
    order: a status code outside {5, 6, 9} gives BadStatus (-1); otherwise a
    distance of 0 or above MAX_CALIBRATION gives OutOfRange (-2); otherwise a
    distance within NOISE_RANGE of the calibration value, or beyond it, gives
    Background (-3); otherwise the cell is Valid and holds its distance.  The
    integer stored by [processMeasuredData] is the code of that tag, and the
    tag can be read back from it. *)
Theorem processMeasuredData_classifies (g : globals) (m : VL53L5CX_ResultsData)
    (adjustedData : list Z) (i : Z) :
  Z.of_nat (length adjustedData) = imageResolution g ->
  RawFrame_ok m ->
  0 <= i < imageResolution g ->
  let tag := classify (aget (target_status m) i) (aget (distance_mm m) i)
               (aget (calibration g) i) in
  aget (processMeasuredData g m adjustedData) i = code tag /\
  tag_of (aget (processMeasuredData g m adjustedData) i) = Some tag.
Proof.
  intros Hlen Hm Hi tag. subst tag.
  pose proof (aget_nonneg _ i Hm) as Hd.
  rewrite processMeasuredData_cell_value by assumption.
  rewrite processMeasuredData_value_classify by exact Hd.
  split; [reflexivity | apply tag_of_code_classify; exact Hd].
Qed.

(** C8. On an unchanged scene nothing is Valid: a cell whose calibration value
    lies in [1, MAX_CALIBRATION], whose status is good and whose distance
    equals its calibration value is Background; hence, when this is so for
    every cell, the classified frame is Background (-3) throughout. *)
Theorem unchanged_scene_is_background (g : globals) (m : VL53L5CX_ResultsData)
    (adjustedData : list Z) :
  Z.of_nat (length adjustedData) = imageResolution g ->
  (forall i, 0 <= i < imageResolution g ->
     1 <= aget (calibration g) i <= MAX_CALIBRATION ->
     good_status (aget (target_status m) i) = true ->
     aget (distance_mm m) i = aget (calibration g) i ->
     classify (aget (target_status m) i) (aget (distance_mm m) i) (aget (calibration g) i)
       = Background /\
     aget (processMeasuredData g m adjustedData) i = -3 /\
     tag_of (aget (processMeasuredData g m adjustedData) i) = Some Background) /\
  ((forall i, 0 <= i < imageResolution g ->
      1 <= aget (calibration g) i <= MAX_CALIBRATION /\
      good_status (aget (target_status m) i) = true /\
      aget (distance_mm m) i = aget (calibration g) i) ->
   Forall (fun v => tag_of v = Some Background) (processMeasuredData g m adjustedData)).
Proof.
  intros Hlen.
  assert (Hcell : forall i, 0 <= i < imageResolution g ->
     1 <= aget (calibration g) i <= MAX_CALIBRATION ->
     good_status (aget (target_status m) i) = true ->
     aget (distance_mm m) i = aget (calibration g) i ->
     classify (aget (target_status m) i) (aget (distance_mm m) i) (aget (calibration g) i)
       = Background /\
     aget (processMeasuredData g m adjustedData) i = -3 /\
     tag_of (aget (processMeasuredData g m adjustedData) i) = Some Background).
  { intros i Hi Hcal Hgood Heq. unfold MAX_CALIBRATION in Hcal.
    assert (Hc : classify (aget (target_status m) i) (aget (distance_mm m) i)
                   (aget (calibration g) i) = Background).
    { unfold classify. rewrite Hgood, Heq. simpl.
      replace ((aget (calibration g) i =? 0) || (aget (calibration g) i >? MAX_CALIBRATION))
        with false by (unfold MAX_CALIBRATION; lia).
      replace (Z.abs (aget (calibration g) i - aget (calibration g) i) <=? NOISE_RANGE)
        with true by (unfold NOISE_RANGE; lia).
      reflexivity. }
    rewrite processMeasuredData_cell_value by assumption.
    rewrite processMeasuredData_value_classify by lia.
    rewrite Hc. simpl. auto. }
  split; [exact Hcell|].
  intros Hall. apply Forall_lookup. intros k v Hk.
  pose proof (lookup_lt_Some _ _ _ Hk) as Hlt.
  rewrite processMeasuredData_length in Hlt by lia.
  assert (Hi : 0 <= Z.of_nat k < imageResolution g) by lia.
  destruct (Hall _ Hi) as (Hcal & Hgood & Heq).
  destruct (Hcell _ Hi Hcal Hgood Heq) as (_ & _ & Ht).
  unfold aget in Ht. rewrite Nat2Z.id, nth_lookup, Hk in Ht. exact Ht.
Qed.

(** C9. After the calibration read-out every calibration cell lies in
    [1, MAX_CALIBRATION]: a raw reading of 0 or above MAX_CALIBRATION becomes
    MAX_CALIBRATION, any other (non-negative) reading is kept as it is. *)
Theorem calibration_in_range (m : VL53L5CX_ResultsData) (calibration0 : list Z) (i : Z) :
  length calibration0 = 64%nat ->
  RawFrame_ok m ->
  0 <= i < 64 ->
  let raw := aget (distance_mm m) i in
  let cal := aget (initTOF_calibration m calibration0) i in
  1 <= cal <= MAX_CALIBRATION /\
  (raw = 0 \/ raw > MAX_CALIBRATION -> cal = MAX_CALIBRATION) /\
  (raw <> 0 -> raw <= MAX_CALIBRATION -> cal = raw).
Proof.
  intros Hlen Hm Hi raw cal. subst cal.
  pose proof (aget_nonneg _ i Hm) as Hd. fold raw in Hd.
  rewrite initTOF_calibration_cell by assumption. fold raw.
  unfold initTOF_value, MAX_CALIBRATION.
  destruct ((raw =? 0) || (raw >? 2000)) eqn:E.
  - apply orb_true_iff in E. repeat split; intros; lia.
  - apply orb_false_iff in E. repeat split; intros; lia.
Qed.

(** ** The scan of getPOI *)

Lemma getPOI_test_qualifies (g : globals) (adj : list Z) (y x : Z) (p : pointOfInterest) :
  getPOI_test g adj y x p =
  qualifies g adj y x && (aget adj (y * imageWidth g + x) <? POI.distanceMM p).
Proof.
  unfold getPOI_test, qualifies. cbv zeta.
  repeat match goal with |- context [?a >? ?b] => destruct (a >? b) end;
  repeat match goal with |- context [?a <? ?b] => destruct (a <? b) end;
  destruct (validate _); reflexivity.
Qed.

Lemma validate_true (score : Z) : validate score = true <-> 3 <= score.
Proof.
  unfold validate. cbv zeta. destruct (score >=? 3) eqn:E; split; intros; try lia; congruence.
Qed.

Lemma qualifies_support (g : globals) (adj : list Z) (y x : Z) :
  qualifies g adj y x = true -> 3 <= scoreZone g (y * imageWidth g + x) adj.
Proof.
  unfold qualifies. cbv zeta. rewrite !andb_true_iff. intros [[[_ Hv] _] _].
  apply validate_true. exact Hv.
Qed.

Section Scan.
Variable g : globals.
Variable adj : list Z.
Variable millis : Z -> Z.
Variable p0 : pointOfInterest.
Hypothesis p0_no_detection : POI.hasDetection p0 = false.

Lemma scan_selected_zone (y x : Z) (p : pointOfInterest) :
  on_grid g y x ->
  scan_selected g adj p0 y x p ->
  scan_selected g adj p0 y (x + 1) (getPOI_zone g adj millis y x p).
Proof.
  intros Hg (Hnone & Hsel). unfold getPOI_zone.
  destruct (getPOI_test g adj y x p) eqn:Et.
  - rewrite getPOI_test_qualifies in Et. apply andb_true_iff in Et as [Hq _].
    split; simpl; [discriminate|]. intros _.
    repeat split; try apply Hg; try exact Hq.
    right. lia.
  - split; [exact Hnone|]. intros Hd. destruct (Hsel Hd) as (H1 & H2 & H3).
    repeat split; try apply H1; try apply H3.
    unfold before in *. lia.
Qed.

Lemma scan_selected_row (y : Z) (p : pointOfInterest) :
  0 <= y < imageWidth g ->
  scan_selected g adj p0 y 0 p ->
  scan_selected g adj p0 (y + 1) 0
    (for_loop 0 (imageWidth g) (fun x pPOI => getPOI_zone g adj millis y x pPOI) p).
Proof.
  intros Hy Hp.
  assert (H : scan_selected g adj p0 y (imageWidth g)
                (for_loop 0 (imageWidth g) (fun x pPOI => getPOI_zone g adj millis y x pPOI) p)).
  { apply (for_loop_ind (fun x q => scan_selected g adj p0 y x q)); [lia | exact Hp |].
    intros x q Hx Hq. apply scan_selected_zone; [|exact Hq].
    unfold on_grid. lia. }
  destruct H as (Hnone & Hsel). split; [exact Hnone|].
  intros Hd. destruct (Hsel Hd) as (H1 & H2 & H3).
  repeat split; try apply H1; try apply H3.
  destruct H1 as [Hx _]. unfold before in *. lia.
Qed.

Lemma scan_selected_all :
  scan_selected g adj p0 (imageWidth g) 0 (getPOI_scan g adj millis p0).
Proof.
  unfold getPOI_scan.
  destruct (Z_lt_le_dec (imageWidth g) 0) as [Hneg|Hpos].
  - rewrite for_loop_empty by lia. split; [reflexivity|]. congruence.
  - apply (for_loop_ind (fun y q => scan_selected g adj p0 y 0 q)); [lia | |].
    + split; [reflexivity|]. congruence.
    + intros y q Hy Hq. apply scan_selected_row; assumption.
Qed.

(** When no zone satisfies the zone conditions the scan changes nothing. *)
Lemma scan_nothing_qualifies :
  (forall y x, on_grid g y x -> qualifies g adj y x = false) ->
  getPOI_scan g adj millis p0 = p0.
Proof.
  intros Hq. unfold getPOI_scan.
  destruct (Z_lt_le_dec (imageWidth g) 0) as [Hneg|Hpos]; [apply for_loop_empty; lia|].
  apply (for_loop_ind (fun _ q => q = p0)); [lia | reflexivity |].
  intros y q Hy ->.
  apply (for_loop_ind (fun _ q => q = p0)); [lia | reflexivity |].
  intros x q Hx ->. unfold getPOI_zone.
  rewrite getPOI_test_qualifies, Hq; [reflexivity|].
  unfold on_grid. lia.
Qed.

Hypothesis p0_distance : POI.distanceMM p0 = MAX_CALIBRATION + 1.
Hypothesis adj_bounded : forall k, 0 <= k -> aget adj k <= MAX_CALIBRATION.

Lemma scan_best_zone (y x : Z) (p : pointOfInterest) :
  on_grid g y x ->
  scan_selected g adj p0 y x p ->
  scan_best g adj y x p ->
  scan_best g adj y (x + 1) (getPOI_zone g adj millis y x p).
Proof.
  intros Hg (Hnone & Hsel) Hbest y' x' Hg' Hbefore Hq'.
  assert (Hcases : before y' x' y x \/ (y' = y /\ x' = x))
    by (unfold before in *; lia).
  unfold getPOI_zone. rewrite getPOI_test_qualifies.
  destruct (qualifies g adj y x) eqn:Hq; simpl.
  - destruct (aget adj (y * imageWidth g + x) <? POI.distanceMM p) eqn:Hlt; simpl.
    + (* the zone becomes the closest one *)
      split; [reflexivity|].
      destruct Hcases as [Hold | [-> ->]].
      * destruct (Hbest _ _ Hg' Hold Hq') as (_ & Hle & _). split; [lia|]. lia.
      * split; [lia|]. intros _. unfold before. lia.
    + (* the zone is no closer than the running closest one *)
      destruct Hcases as [Hold | [-> ->]]; [exact (Hbest _ _ Hg' Hold Hq')|].
      destruct (POI.hasDetection p) eqn:Hd.
      * destruct (Hsel eq_refl) as (_ & Hb & _).
        split; [reflexivity|]. split; [lia|]. intros _. unfold before in *. lia.
      * rewrite (Hnone eq_refl) in Hlt. rewrite p0_distance in Hlt.
        assert (0 <= y * imageWidth g + x) by (destruct Hg; nia).
        specialize (adj_bounded _ H). lia.
  - destruct Hcases as [Hold | [-> ->]]; [exact (Hbest _ _ Hg' Hold Hq')|].
    congruence.
Qed.

Lemma scan_best_row (y : Z) (p : pointOfInterest) :
  0 <= y < imageWidth g ->
  scan_selected g adj p0 y 0 p ->
  scan_best g adj y 0 p ->
  scan_best g adj (y + 1) 0
    (for_loop 0 (imageWidth g) (fun x pPOI => getPOI_zone g adj millis y x pPOI) p).
Proof.
  intros Hy Hs Hb.
  assert (H : scan_selected g adj p0 y (imageWidth g)
                (for_loop 0 (imageWidth g) (fun x pPOI => getPOI_zone g adj millis y x pPOI) p) /\
              scan_best g adj y (imageWidth g)
                (for_loop 0 (imageWidth g) (fun x pPOI => getPOI_zone g adj millis y x pPOI) p)).
  { apply (for_loop_ind (fun x q => scan_selected g adj p0 y x q /\ scan_best g adj y x q));
      [lia | split; assumption |].
    intros x q Hx [Hqs Hqb].
    assert (on_grid g y x) by (unfold on_grid; lia).
    split; [apply scan_selected_zone | apply scan_best_zone]; assumption. }
  destruct H as [_ H]. intros y' x' Hg' Hbefore Hq'.
  apply H; try assumption.
  destruct Hg' as [Hx' _]. fold (imageWidth g) in Hx'. unfold before in *. lia.
Qed.

Lemma scan_best_all :
  scan_best g adj (imageWidth g) 0 (getPOI_scan g adj millis p0).
Proof.
  unfold getPOI_scan.
  destruct (Z_lt_le_dec (imageWidth g) 0) as [Hneg|Hpos].
  - intros y' x' [Hx' Hy']. fold (imageWidth g) in Hy'. lia.
  - assert (H : scan_selected g adj p0 (imageWidth g) 0
                  (for_loop 0 (imageWidth g) (fun y pPOI =>
                     for_loop 0 (imageWidth g) (fun x pPOI => getPOI_zone g adj millis y x pPOI) pPOI) p0) /\
                scan_best g adj (imageWidth g) 0
                  (for_loop 0 (imageWidth g) (fun y pPOI =>
                     for_loop 0 (imageWidth g) (fun x pPOI => getPOI_zone g adj millis y x pPOI) pPOI) p0)).
    { apply (for_loop_ind (fun y q => scan_selected g adj p0 y 0 q /\ scan_best g adj y 0 q));
        [lia | |].
      - split; [split; [reflexivity | congruence]|].
        intros y' x' [Hx' Hy'] Hb. unfold before in Hb. lia.
      - intros y q Hy [Hqs Hqb].
        split; [apply scan_selected_row | apply scan_best_row]; assumption. }
    apply H.
Qed.
End Scan.

(** ** scoreZone is the neighbourhood support *)

Lemma for_loop_3 {S : Type} (body : Z -> S -> S) (s : S) :
  for_loop (-1) 2 body s = body 1 (body 0 (body (-1) s)).
Proof. reflexivity. Qed.

Lemma count_fold (f : Z * Z -> bool) (l : list (Z * Z)) (s : Z) :
  fold_left (fun score c => if f c then score + 1 else score) l s =
  s + Z.of_nat (length (List.filter f l)).
Proof.
  revert s. induction l as [|c l IH]; intros s; simpl.
  - lia.
  - rewrite IH. destruct (f c); simpl length; lia.
Qed.

Lemma zone_coordinates (W y x : Z) :
  0 <= x < W -> 0 <= y -> Z.quot (y * W + x) W = y /\ Z.rem (y * W + x) W = x.
Proof.
  intros Hx Hy.
  assert (0 <= y * W + x) by nia.
  rewrite Z.quot_div_nonneg, Z.rem_mod_nonneg by lia.
  split.
  - symmetry. apply (Z.div_unique_pos _ _ y x); lia.
  - symmetry. apply (Z.mod_unique_pos _ _ y x); lia.
Qed.

Lemma if_andb {T : Type} (c d : bool) (A B : T) :
  (if c then (if d then A else B) else B) = (if c && d then A else B).
Proof. destruct c; reflexivity. Qed.

(** The two nested loops over [yIndex] and [xIndex] visit the nine offsets
    row by row. *)
Lemma for_loop_3x3 {S : Type} (cell : Z -> Z -> S -> S) (s : S) :
  for_loop (-1) 2 (fun yIndex s => for_loop (-1) 2 (fun xIndex s => cell yIndex xIndex s) s) s
  = fold_left (fun s o => cell (fst o) (snd o) s) neighbour_offsets s.
Proof. reflexivity. Qed.

Lemma neighbourhood_offsets (y x : Z) :
  neighbourhood y x = map (fun o => (y + fst o, x + snd o)) neighbour_offsets.
Proof. reflexivity. Qed.

Lemma fold_left_map_ext {A B C : Type} (f : A -> C -> A) (h : B -> C) (k : A -> B -> A)
    (l : list B) (a : A) :
  (forall a b, f a (h b) = k a b) ->
  fold_left f (map h l) a = fold_left k l a.
Proof.
  intros H. revert a. induction l as [|b l IH]; intros a; simpl; [reflexivity|].
  rewrite H. apply IH.
Qed.

Lemma scoreZone_support (g : globals) (adj : list Z) (y x : Z) :
  on_grid g y x ->
  scoreZone g (y * imageWidth g + x) adj = support g adj y x.
Proof.
  intros [Hx Hy]. unfold scoreZone, support. cbv zeta.
  destruct (zone_coordinates (imageWidth g) y x) as [-> ->]; [lia | lia |].
  rewrite <- (Z.add_0_l (Z.of_nat _)), <- count_fold, neighbourhood_offsets.
  etransitivity;
    [exact (for_loop_3x3 (fun yIndex xIndex score =>
       if (x + xIndex >=? 0) && (x + xIndex <? imageWidth g)
          && (y + yIndex >=? 0) && (y + yIndex <? imageWidth g)
       then if aget adj ((y + yIndex) * imageWidth g + (x + xIndex)) >? 0
            then score + 1 else score
       else score) 0)|].
  symmetry. apply fold_left_map_ext. intros a [dy dx]. unfold valid_zone. cbn [fst snd].
  symmetry. apply if_andb.
Qed.

(** ** The array getPOI scans *)

Lemma adjustedData_of_cell (g : globals) (m : VL53L5CX_ResultsData) (i : Z) :
  0 <= i < imageResolution g ->
  aget (adjustedData_of g m) i = processMeasuredData_value g m i.
Proof.
  intros Hi. unfold adjustedData_of.
  apply processMeasuredData_cell_value; [|exact Hi].
  rewrite length_replicate. lia.
Qed.

Lemma adjustedData_of_outside (g : globals) (m : VL53L5CX_ResultsData) (i : Z) :
  imageResolution g <= i -> aget (adjustedData_of g m) i = 0.
Proof.
  intros Hi. unfold adjustedData_of, processMeasuredData.
  assert (Hz : forall n, aget (replicate n 0) i = 0)
    by (intros n; destruct (aget_replicate n 0 i); assumption).
  destruct (Z_lt_le_dec (imageResolution g) 0) as [Hneg|Hpos].
  - rewrite for_loop_empty by lia. apply Hz.
  - destruct (for_loop_fill (processMeasuredData_value g m) (processMeasuredData_cell g m)
                (imageResolution g) (replicate (Z.to_nat (imageResolution g)) 0))
      as (_ & _ & H).
    + intros k b _. apply processMeasuredData_cell_stores.
    + rewrite length_replicate. lia.
    + rewrite H by exact Hi. apply Hz.
Qed.

Lemma processMeasuredData_value_bounded (g : globals) (m : VL53L5CX_ResultsData) (i : Z) :
  0 <= aget (distance_mm m) i -> processMeasuredData_value g m i <= MAX_CALIBRATION.
Proof.
  intros Hd. rewrite processMeasuredData_value_classify by exact Hd.
  unfold classify, MAX_CALIBRATION.
  set (d := aget (distance_mm m) i) in *. set (c := aget (calibration g) i).
  destruct (negb _); [simpl; lia|].
  destruct ((d =? 0) || (d >? 2000)) eqn:E; [simpl; lia|].
  destruct ((Z.abs (d - c) <=? NOISE_RANGE) || (d >? c)); simpl; [lia|].
  apply orb_false_iff in E. lia.
Qed.

Lemma adjustedData_of_bounded (g : globals) (m : VL53L5CX_ResultsData) :
  RawFrame_ok m -> forall k, 0 <= k -> aget (adjustedData_of g m) k <= MAX_CALIBRATION.
Proof.
  intros Hm k Hk. destruct (Z_lt_le_dec k (imageResolution g)) as [Hin|Hout].
  - rewrite adjustedData_of_cell by lia.
    apply processMeasuredData_value_bounded, aget_nonneg, Hm.
  - rewrite adjustedData_of_outside by exact Hout. unfold MAX_CALIBRATION. lia.
Qed.

(** A valid cell of the array holds the raw reading, which is closer than the
    calibration value by more than the noise range. *)
Lemma adjustedData_of_valid (g : globals) (m : VL53L5CX_ResultsData) (i : Z) :
  RawFrame_ok m -> 0 <= i ->
  aget (adjustedData_of g m) i > 0 ->
  aget (adjustedData_of g m) i = aget (distance_mm m) i /\
  aget (adjustedData_of g m) i < aget (calibration g) i - NOISE_RANGE.
Proof.
  intros Hm Hi Hv. destruct (Z_lt_le_dec i (imageResolution g)) as [Hin|Hout].
  - pose proof (aget_nonneg _ i Hm) as Hd.
    rewrite adjustedData_of_cell in Hv |- * by lia.
    rewrite processMeasuredData_value_classify in Hv |- * by exact Hd.
    revert Hv. unfold classify, NOISE_RANGE.
    set (d := aget (distance_mm m) i) in *. set (c := aget (calibration g) i).
    destruct (negb _); [simpl; lia|].
    destruct ((d =? 0) || (d >? MAX_CALIBRATION)); [simpl; lia|].
    destruct ((Z.abs (d - c) <=? 50) || (d >? c)) eqn:E; simpl; [lia|].
    apply orb_false_iff in E. lia.
  - rewrite adjustedData_of_outside in Hv by exact Hout. lia.
Qed.

Lemma getPOI_ranging (g : globals) (m : VL53L5CX_ResultsData) (millis : Z -> Z)
    (pPOI : pointOfInterest) :
  getPOI g (RangingData m) millis pPOI =
  getPOI_scan g (adjustedData_of g m) millis (getPOI_start (getPOI_reset pPOI)).
Proof. reflexivity. Qed.

(** With a frame in which no zone satisfies the zone conditions, [getPOI]
    returns the reset structure with the running closest distance in it. *)
Lemma getPOI_nothing_qualifies (g : globals) (m : VL53L5CX_ResultsData) (millis : Z -> Z)
    (pPOI : pointOfInterest) :
  (forall y x, on_grid g y x -> qualifies g (adjustedData_of g m) y x = false) ->
  getPOI g (RangingData m) millis pPOI = getPOI_start (getPOI_reset pPOI).
Proof. intros H. rewrite getPOI_ranging. apply scan_nothing_qualifies. exact H. Qed.

(** C5. When [getPOI] reports a detection, the selected cell lies on the grid
    and the support of its 3x3 edge-clipped neighbourhood, which is the
    score recorded in [surroundingHits], is at least 3. *)
Theorem getPOI_selection_supported (g : globals) (poll : sensor_poll) (millis : Z -> Z)
    (pPOI : pointOfInterest) :
  let r := getPOI g poll millis pPOI in
  POI.hasDetection r = true ->
  exists m, poll = RangingData m /\
    on_grid g (POI.y r) (POI.x r) /\
    3 <= scoreZone g (POI.y r * imageWidth g + POI.x r) (adjustedData_of g m) /\
    scoreZone g (POI.y r * imageWidth g + POI.x r) (adjustedData_of g m)
      = support g (adjustedData_of g m) (POI.y r) (POI.x r) /\
    POI.surroundingHits r = support g (adjustedData_of g m) (POI.y r) (POI.x r).
Proof.
  intros r Hd. subst r. destruct poll as [| |m]; try discriminate Hd.
  exists m. split; [reflexivity|].
  rewrite getPOI_ranging in Hd |- *.
  destruct (scan_selected_all g (adjustedData_of g m) millis
              (getPOI_start (getPOI_reset pPOI)) eq_refl) as (_ & Hsel).
  destruct (Hsel Hd) as (Hg & _ & Hq & _ & Hhits).
  pose proof (scoreZone_support g (adjustedData_of g m) _ _ Hg) as Hs.
  repeat split; try apply Hg.
  - apply qualifies_support. exact Hq.
  - exact Hs.
  - rewrite Hhits. exact Hs.
Qed.

(** C6. Of two zones that satisfy the zone conditions and are equally close,
    [getPOI] never returns the one that comes later in row-major order (y
    ascending, then x ascending); and when no zone that satisfies the
    conditions is closer, or as close and earlier, it returns the earlier of
    the two. *)
Theorem getPOI_tie_first (g : globals) (m : VL53L5CX_ResultsData) (millis : Z -> Z)
    (pPOI : pointOfInterest) (y1 x1 y2 x2 : Z) :
  RawFrame_ok m ->
  let adj := adjustedData_of g m in
  let r := getPOI g (RangingData m) millis pPOI in
  on_grid g y1 x1 -> on_grid g y2 x2 ->
  qualifies g adj y1 x1 = true -> qualifies g adj y2 x2 = true ->
  aget adj (y1 * imageWidth g + x1) = aget adj (y2 * imageWidth g + x2) ->
  before y1 x1 y2 x2 ->
  POI.hasDetection r = true /\
  ~ (POI.y r = y2 /\ POI.x r = x2) /\
  ((forall y' x', on_grid g y' x' -> qualifies g adj y' x' = true ->
      aget adj (y1 * imageWidth g + x1) <= aget adj (y' * imageWidth g + x') /\
      (aget adj (y' * imageWidth g + x') = aget adj (y1 * imageWidth g + x1) ->
       ~ before y' x' y1 x1)) ->
   POI.y r = y1 /\ POI.x r = x1 /\ POI.distanceMM r = aget adj (y1 * imageWidth g + x1)).
Proof.
  intros Hm adj r Hg1 Hg2 Hq1 Hq2 Heq Hord. subst r. rewrite getPOI_ranging. fold adj.
  set (p0 := getPOI_start (getPOI_reset pPOI)).
  destruct (scan_selected_all g adj millis p0 eq_refl) as (_ & Hsel).
  pose proof (scan_best_all g adj millis p0 eq_refl eq_refl
                (adjustedData_of_bounded g m Hm)) as Hbest.
  set (r := getPOI_scan g adj millis p0) in *.
  assert (Hend : forall y x, on_grid g y x -> before y x (imageWidth g) 0)
    by (intros y x [_ Hy]; left; lia).
  destruct (Hbest _ _ Hg1 (Hend _ _ Hg1) Hq1) as (Hd & Hle1 & Hfirst1).
  destruct (Hbest _ _ Hg2 (Hend _ _ Hg2) Hq2) as (_ & Hle2 & Hfirst2).
  destruct (Hsel Hd) as (Hgr & _ & Hqr & Hdist & _).
  split; [exact Hd|]. split.
  - intros [Hy Hx]. rewrite Hy, Hx in Hdist, Hfirst1.
    rewrite Hdist, Heq in Hfirst1. apply Hfirst1; [reflexivity | exact Hord].
  - intros Hmin. destruct (Hmin _ _ Hgr Hqr) as (Hge & Hnot).
    assert (Hd1 : POI.distanceMM r = aget adj (y1 * imageWidth g + x1)) by lia.
    specialize (Hfirst1 Hd1). rewrite <- Hdist, Hd1 in Hnot. specialize (Hnot eq_refl).
    unfold before in *. repeat split; lia.
Qed.

(** C10. A cell classified Valid with distance [d] holds the raw reading,
    and [1 <= d < calibration - NOISE_RANGE]; a positive cell of the array
    [getPOI] scans is such a cell.  Hence the comparison with the
    calibration frame made by [getPOI] never decides: its test has the same
    value with that comparison left out. *)
Theorem valid_closer_than_calibration (g : globals) (m : VL53L5CX_ResultsData) :
  RawFrame_ok m ->
  (forall i d,
     classify (aget (target_status m) i) (aget (distance_mm m) i) (aget (calibration g) i)
       = Valid d ->
     d = aget (distance_mm m) i /\ 1 <= d /\
     d < aget (calibration g) i - NOISE_RANGE /\ d < aget (calibration g) i) /\
  (forall i, 0 <= i -> aget (adjustedData_of g m) i > 0 ->
     classify (aget (target_status m) i) (aget (distance_mm m) i) (aget (calibration g) i)
       = Valid (aget (adjustedData_of g m) i) /\
     aget (adjustedData_of g m) i < aget (calibration g) i) /\
  (forall y x pPOI, 0 <= y * imageWidth g + x ->
     getPOI_test g (adjustedData_of g m) y x pPOI =
     getPOI_test_without_calibration g (adjustedData_of g m) y x pPOI).
Proof.
  intros Hm.
  assert (Hvalid : forall i d,
     classify (aget (target_status m) i) (aget (distance_mm m) i) (aget (calibration g) i)
       = Valid d ->
     d = aget (distance_mm m) i /\ 1 <= d /\
     d < aget (calibration g) i - NOISE_RANGE /\ d < aget (calibration g) i).
  { intros i d. pose proof (aget_nonneg _ i Hm) as Hd. revert Hd.
    unfold classify, NOISE_RANGE, MAX_CALIBRATION.
    set (r := aget (distance_mm m) i). set (c := aget (calibration g) i). intros Hd.
    destruct (negb _); [discriminate|].
    destruct ((r =? 0) || (r >? 2000)) eqn:Er; [discriminate|].
    destruct ((Z.abs (r - c) <=? 50) || (r >? c)) eqn:Eb; [discriminate|].
    intros [= <-]. apply orb_false_iff in Er, Eb. lia. }
  assert (Hpos : forall i, 0 <= i -> aget (adjustedData_of g m) i > 0 ->
     classify (aget (target_status m) i) (aget (distance_mm m) i) (aget (calibration g) i)
       = Valid (aget (adjustedData_of g m) i) /\
     aget (adjustedData_of g m) i < aget (calibration g) i).
  { intros i Hi Hv.
    destruct (adjustedData_of_valid g m i Hm Hi Hv) as [Hraw Hlt].
    split; [|unfold NOISE_RANGE in Hlt; lia].
    destruct (Z_lt_le_dec i (imageResolution g)) as [Hin|Hout];
      [|rewrite adjustedData_of_outside in Hv by exact Hout; lia].
    pose proof (aget_nonneg _ i Hm) as Hd.
    rewrite adjustedData_of_cell in Hv, Hraw |- * by lia.
    rewrite processMeasuredData_value_classify in Hv, Hraw |- * by exact Hd.
    destruct (classify _ _ _) as [| | |d]; simpl in *; try lia.
    congruence. }
  split; [exact Hvalid|]. split; [exact Hpos|].
  intros y x pPOI Hk. unfold getPOI_test, getPOI_test_without_calibration. cbv zeta.
  destruct (aget (adjustedData_of g m) (y * imageWidth g + x) >? 0) eqn:E; [|reflexivity].
  destruct (Hpos _ Hk) as [_ Hlt]; [lia|].
  replace (aget (adjustedData_of g m) (y * imageWidth g + x)
             <? aget (calibration g) (y * imageWidth g + x)) with true by lia.
  rewrite andb_true_r. reflexivity.
Qed.

(** ** getPOI and the structure it is given *)

Lemma for_loop_from_rel {S : Type} (R : S -> S -> Prop) (body : Z -> S -> S) :
  (forall k s t, R s t -> R (body k s) (body k t)) ->
  forall (n : nat) (i : Z) (s t : S),
    R s t -> R (for_loop_from n i body s) (for_loop_from n i body t).
Proof.
  intros Hbody. induction n as [|n IH]; intros i s t Hst; simpl; [exact Hst|].
  apply IH, Hbody, Hst.
Qed.

Lemma getPOI_zone_same (g : globals) (adj : list Z) (millis : Z -> Z) (y x : Z)
    (p q : pointOfInterest) :
  same_but_hits p q ->
  same_but_hits (getPOI_zone g adj millis y x p) (getPOI_zone g adj millis y x q).
Proof.
  intros H. unfold getPOI_zone. rewrite !getPOI_test_qualifies.
  destruct H as (H1 & H2 & H3 & H4 & H5 & H6 & H7). rewrite <- H5.
  destruct (qualifies g adj y x && _); unfold same_but_hits; simpl; tauto.
Qed.

Lemma getPOI_same (g : globals) (poll : sensor_poll) (millis : Z -> Z)
    (p q : pointOfInterest) :
  same_but_hits (getPOI g poll millis p) (getPOI g poll millis q).
Proof.
  destruct poll as [| |m]; try (unfold same_but_hits; simpl; tauto).
  rewrite !getPOI_ranging. unfold getPOI_scan, for_loop.
  apply for_loop_from_rel; [|unfold same_but_hits; simpl; tauto].
  intros y s t Hst. apply for_loop_from_rel; [|exact Hst].
  intros x s' t'. apply getPOI_zone_same.
Qed.

(** [raw_outcome] tells the two flags of what [getPOI] returns, whatever
    structure it is given. *)
Lemma getPOI_outcome (g : globals) (c : cycle) (p : pointOfInterest) :
  match raw_outcome g c with
  | NoNewData => POI.gotNewSensorData (getPOI g (fst c) (snd c) p) = false
  | NoDetection => POI.gotNewSensorData (getPOI g (fst c) (snd c) p) = true /\
                   POI.hasDetection (getPOI g (fst c) (snd c) p) = false
  | Detection => POI.gotNewSensorData (getPOI g (fst c) (snd c) p) = true /\
                 POI.hasDetection (getPOI g (fst c) (snd c) p) = true
  end.
Proof.
  unfold raw_outcome.
  destruct (getPOI_same g (fst c) (snd c) p (getPOI_reset example_POI)) as (H1 & H2 & _).
  rewrite <- H1, <- H2.
  destruct (POI.gotNewSensorData _); simpl; [|reflexivity].
  destruct (POI.hasDetection _); auto.
Qed.

Lemma for_loop_from_pres {S : Type} (P : S -> Prop) (body : Z -> S -> S) :
  (forall k s, P s -> P (body k s)) ->
  forall (n : nat) (i : Z) (s : S), P s -> P (for_loop_from n i body s).
Proof.
  intros Hbody. induction n as [|n IH]; intros i s Hs; simpl; [exact Hs|].
  apply IH, Hbody, Hs.
Qed.

Lemma getPOI_scan_gotNewSensorData (g : globals) (adj : list Z) (millis : Z -> Z)
    (p0 : pointOfInterest) :
  POI.gotNewSensorData (getPOI_scan g adj millis p0) = POI.gotNewSensorData p0.
Proof.
  unfold getPOI_scan, for_loop.
  apply (for_loop_from_pres (fun q => POI.gotNewSensorData q = POI.gotNewSensorData p0));
    [|reflexivity].
  intros y s Hs.
  apply (for_loop_from_pres (fun q => POI.gotNewSensorData q = POI.gotNewSensorData p0));
    [|exact Hs].
  intros x s' Hs'. unfold getPOI_zone.
  destruct (getPOI_test g adj y x s'); [simpl|]; exact Hs'.
Qed.

Lemma getPOI_no_new_data (g : globals) (poll : sensor_poll) (millis : Z -> Z)
    (p : pointOfInterest) :
  POI.gotNewSensorData (getPOI g poll millis p) = false ->
  getPOI g poll millis p = getPOI_reset p.
Proof.
  destruct poll as [| |m]; try reflexivity.
  rewrite getPOI_ranging, getPOI_scan_gotNewSensorData. discriminate.
Qed.

(** ** The temporal filter, case by case *)

Lemma temporalFilter_no_new_data (st : DebounceState) (p : pointOfInterest) :
  POI.gotNewSensorData p = false -> temporalFilter st p = (st, p).
Proof. intros H. unfold temporalFilter. rewrite H. reflexivity. Qed.

Lemma temporalFilter_no_detection (st : DebounceState) (p : pointOfInterest) :
  POI.gotNewSensorData p = true -> POI.hasDetection p = false ->
  temporalFilter st p = (set_waitingFirstDetection st, p).
Proof. intros H1 H2. unfold temporalFilter. rewrite H1, H2. reflexivity. Qed.

(** A frame with a detection: the count restarts at 1 if the filter was
    waiting for a first detection and grows by one otherwise, wherever the
    detection is; the tracked cell changes only in the first case. *)
Lemma temporalFilter_detection (st : DebounceState) (p : pointOfInterest) :
  POI.gotNewSensorData p = true -> POI.hasDetection p = true ->
  let n := if waitingFirstDetection st then 1 else sequentialFramesWithHit st + 1 in
  let st' := fst (temporalFilter st p) in
  let q := snd (temporalFilter st p) in
  waitingFirstDetection st' = false /\
  sequentialFramesWithHit st' = n /\
  currentX st' = (if waitingFirstDetection st then POI.x p else currentX st) /\
  currentY st' = (if waitingFirstDetection st then POI.y p else currentY st) /\
  q = (if n >=? FRAMES_FOR_GOOD_HIT then p else set_hasDetection false p).
Proof.
  intros H1 H2. unfold temporalFilter. rewrite H1, H2. cbv zeta. simpl negb. cbv iota.
  destruct (waitingFirstDetection st) eqn:Ew; simpl.
  - repeat match goal with |- context [if ?b then _ else _] => destruct b end;
      simpl; auto.
  - destruct (sequentialFramesWithHit st + 1 >=? FRAMES_FOR_GOOD_HIT); simpl.
    + auto.
    + repeat match goal with |- context [if ?b then _ else _] => destruct b end;
        simpl; auto.
Qed.

Lemma cycle_no_new_data (g : globals) (c : cycle) (st : DebounceState) (p : pointOfInterest) :
  raw_outcome g c = NoNewData ->
  getPOITemporalFiltered g (fst c) (snd c) st p = (st, getPOI_reset p).
Proof.
  intros Ho. pose proof (getPOI_outcome g c p) as H. rewrite Ho in H.
  unfold getPOITemporalFiltered. rewrite temporalFilter_no_new_data by exact H.
  rewrite getPOI_no_new_data by exact H. reflexivity.
Qed.

Lemma cycle_no_detection (g : globals) (c : cycle) (st : DebounceState) (p : pointOfInterest) :
  raw_outcome g c = NoDetection ->
  getPOITemporalFiltered g (fst c) (snd c) st p =
    (set_waitingFirstDetection st, getPOI g (fst c) (snd c) p) /\
  POI.hasDetection (getPOI g (fst c) (snd c) p) = false.
Proof.
  intros Ho. pose proof (getPOI_outcome g c p) as H. rewrite Ho in H. destruct H as [H1 H2].
  unfold getPOITemporalFiltered. rewrite temporalFilter_no_detection by assumption.
  split; [reflexivity | exact H2].
Qed.

Lemma cycle_detection (g : globals) (c : cycle) (st : DebounceState) (p : pointOfInterest) :
  raw_outcome g c = Detection ->
  let n := if waitingFirstDetection st then 1 else sequentialFramesWithHit st + 1 in
  let st' := fst (getPOITemporalFiltered g (fst c) (snd c) st p) in
  let q := snd (getPOITemporalFiltered g (fst c) (snd c) st p) in
  waitingFirstDetection st' = false /\
  sequentialFramesWithHit st' = n /\
  POI.hasDetection q = (n >=? FRAMES_FOR_GOOD_HIT) /\
  (n >= FRAMES_FOR_GOOD_HIT -> q = getPOI g (fst c) (snd c) p).
Proof.
  intros Ho. pose proof (getPOI_outcome g c p) as H. rewrite Ho in H. destruct H as [H1 H2].
  unfold getPOITemporalFiltered.
  destruct (temporalFilter_detection st _ H1 H2) as (Hw & Hn & _ & _ & Hq).
  cbv zeta. rewrite Hw, Hn, Hq. repeat split.
  - destruct (_ >=? FRAMES_FOR_GOOD_HIT); [exact H2 | reflexivity].
  - intros Hge. destruct (_ >=? FRAMES_FOR_GOOD_HIT) eqn:E; [reflexivity | lia].
Qed.

(** ** Runs of cycles *)

Lemma run_cons (g : globals) (c : cycle) (cycles : list cycle) (st : DebounceState)
    (p : pointOfInterest) :
  run g (c :: cycles) st p =
  run g cycles (fst (getPOITemporalFiltered g (fst c) (snd c) st p))
               (snd (getPOITemporalFiltered g (fst c) (snd c) st p)).
Proof.
  destruct c as [poll millis]. simpl.
  destruct (getPOITemporalFiltered g poll millis st p). reflexivity.
Qed.

Lemma run_app (g : globals) (l1 l2 : list cycle) (st : DebounceState) (p : pointOfInterest) :
  run g (l1 ++ l2) st p = run g l2 (fst (run g l1 st p)) (snd (run g l1 st p)).
Proof.
  revert st p. induction l1 as [|c l1 IH]; intros st p; [reflexivity|].
  rewrite <- app_comm_cons, !run_cons. apply IH.
Qed.

(** Cycles without new data leave the statics as they are. *)
Lemma run_no_new_data (g : globals) (idle : list cycle) (st : DebounceState)
    (p : pointOfInterest) :
  Forall (fun c => raw_outcome g c = NoNewData) idle ->
  fst (run g idle st p) = st.
Proof.
  intros H. revert p. induction H as [|c idle Hc _ IH]; intros p; [reflexivity|].
  rewrite run_cons, cycle_no_new_data by exact Hc. apply IH.
Qed.

(** From the initial statics, the filter is past waiting for a first
    detection only if the last frame received had a detection. *)
Lemma run_tracking (g : globals) (cycles : list cycle) (p : pointOfInterest) :
  waitingFirstDetection (fst (run g cycles DebounceState_init p)) = false ->
  exists pre c idle,
    cycles = pre ++ c :: idle /\ raw_outcome g c = Detection /\
    Forall (fun c => raw_outcome g c = NoNewData) idle.
Proof.
  induction cycles as [|c cycles IH] using rev_ind; [discriminate|].
  rewrite run_app, run_cons. simpl run.
  destruct (raw_outcome g c) eqn:Ho.
  - rewrite cycle_no_new_data by exact Ho. simpl. intros Hw.
    destruct (IH Hw) as (pre & c' & idle & -> & Hc' & Hidle).
    exists pre, c', (idle ++ [c]). rewrite <- app_assoc. split; [reflexivity|].
    split; [exact Hc'|]. apply Forall_app. split; [exact Hidle|]. constructor; [exact Ho|constructor].
  - destruct (cycle_no_detection g c (fst (run g cycles DebounceState_init p))
                (snd (run g cycles DebounceState_init p)) Ho) as [-> _].
    discriminate.
  - intros _. exists cycles, c, []. repeat split; [exact Ho | constructor].
Qed.

(** The filter reports a detection only for a frame with a detection that
    follows, with nothing but cycles without new data in between, another
    frame with a detection. *)
Lemma filter_needs_two_detections (g : globals) (cycles : list cycle) (c : cycle)
    (p : pointOfInterest) :
  POI.hasDetection (snd (run g (cycles ++ [c]) DebounceState_init p)) = true ->
  raw_outcome g c = Detection /\
  exists pre c' idle,
    cycles = pre ++ c' :: idle /\ raw_outcome g c' = Detection /\
    Forall (fun c => raw_outcome g c = NoNewData) idle.
Proof.
  rewrite run_app, run_cons. cbn [run snd].
  set (st := fst (run g cycles DebounceState_init p)).
  set (q := snd (run g cycles DebounceState_init p)).
  destruct (raw_outcome g c) eqn:Ho.
  - rewrite cycle_no_new_data by exact Ho. discriminate.
  - destruct (cycle_no_detection g c st q Ho) as [-> H]. simpl. congruence.
  - destruct (cycle_detection g c st q Ho) as (_ & _ & Hd & _).
    rewrite Hd. intros Hn. split; [reflexivity|].
    apply (run_tracking g cycles p). fold st.
    destruct (waitingFirstDetection st); [discriminate Hn | reflexivity].
Qed.

(** A first frame with a detection is never reported. *)
Lemma filter_suppresses_first_detection (g : globals) (c : cycle) (p : pointOfInterest) :
  POI.hasDetection (snd (run g [c] DebounceState_init p)) = false.
Proof.
  destruct (POI.hasDetection _) eqn:E; [|reflexivity].
  destruct (filter_needs_two_detections g [] c p E) as (_ & pre & c' & idle & H & _).
  destruct pre; discriminate H.
Qed.

(** C7. After a frame without detection the hit count starts over, whatever
    it was: the next frame with a detection is reported with
    [hasDetection = false] and leaves the count at 1, and the one after it
    (FRAMES_FOR_GOOD_HIT = 2 consecutive frames with a detection) is reported
    as the detection [getPOI] made.  Cycles without new data in between
    change nothing. *)
Theorem detection_loss_resets_debounce (g : globals) (st : DebounceState)
    (p : pointOfInterest) (loss hit1 hit2 : cycle) (idle1 idle2 : list cycle) :
  raw_outcome g loss = NoDetection ->
  Forall (fun c => raw_outcome g c = NoNewData) idle1 ->
  raw_outcome g hit1 = Detection ->
  Forall (fun c => raw_outcome g c = NoNewData) idle2 ->
  raw_outcome g hit2 = Detection ->
  let after1 := run g (loss :: idle1 ++ [hit1]) st p in
  let after2 := run g ((loss :: idle1 ++ [hit1]) ++ idle2 ++ [hit2]) st p in
  POI.hasDetection (snd after1) = false /\
  sequentialFramesWithHit (fst after1) = 1 /\
  POI.hasDetection (snd after2) = true /\
  sequentialFramesWithHit (fst after2) = FRAMES_FOR_GOOD_HIT /\
  snd after2 = getPOI g (fst hit2) (snd hit2) (snd (run g idle2 (fst after1) (snd after1))).
Proof.
  intros Hloss Hidle1 Hhit1 Hidle2 Hhit2 after1 after2.
  assert (H1 : waitingFirstDetection (fst after1) = false /\
               sequentialFramesWithHit (fst after1) = 1 /\
               POI.hasDetection (snd after1) = false).
  { subst after1. rewrite run_cons, run_app, run_cons. cbn [run fst snd].
    destruct (cycle_no_detection g loss st p Hloss) as [-> _]. cbn [fst snd].
    set (q := snd (run g idle1 _ _)).
    rewrite (run_no_new_data g idle1 _ _ Hidle1).
    destruct (cycle_detection g hit1 (set_waitingFirstDetection st) q Hhit1)
      as (Hw & Hn & Hd & _).
    simpl in Hn, Hd. rewrite Hw, Hn, Hd. auto. }
  destruct H1 as (Hw1 & Hn1 & Hd1).
  split; [exact Hd1|]. split; [exact Hn1|].
  subst after2. rewrite run_app. fold after1. rewrite run_app, run_cons. cbn [run fst snd].
  set (q := snd (run g idle2 _ _)).
  rewrite (run_no_new_data g idle2 _ _ Hidle2).
  destruct (cycle_detection g hit2 (fst after1) q Hhit2) as (_ & Hn & Hd & Hq).
  rewrite Hw1, Hn1 in Hn, Hd, Hq. simpl in Hn, Hd.
  rewrite Hn, Hd. repeat split. apply Hq. unfold FRAMES_FOR_GOOD_HIT. lia.
Qed.

(** C4, as the code has it.  In a cycle in which the imager has no new frame,
    or reading the frame fails, [getPOITemporalFiltered] leaves the debounce
    statics unchanged; what it returns is the structure [getPOI] has just
    reset: no new data, no detection, x = y = -255, distance, time and
    calibration distance -1, [surroundingHits] as it was. *)
Theorem no_new_data_cycle (g : globals) (millis : Z -> Z) (st : DebounceState)
    (pPOI : pointOfInterest) :
  getPOITemporalFiltered g DataNotReady millis st pPOI
    = (st, POI_no_new_data (POI.surroundingHits pPOI)) /\
  getPOITemporalFiltered g RangingFailed millis st pPOI
    = (st, POI_no_new_data (POI.surroundingHits pPOI)).
Proof. split; reflexivity. Qed.

(** C4, as stated, fails: after two frames with a detection in the corner
    the filter reports it; in the next cycle, without new data, the
    structure returned is not the one returned before. *)
Lemma no_new_data_output_not_kept :
  let after := run example_globals
                 [(RangingData frame_near_origin, example_clock);
                  (RangingData frame_near_origin, example_clock)]
                 DebounceState_init example_POI in
  let next := getPOITemporalFiltered example_globals DataNotReady example_clock
                (fst after) (snd after) in
  POI.hasDetection (snd after) = true /\
  POI.x (snd after) = 0 /\
  fst next = fst after /\
  POI.hasDetection (snd next) = false /\
  POI.x (snd next) = -255 /\
  snd next <> snd after.
Proof.
  vm_compute. repeat split; intros H; discriminate H.
Qed.

(** C2 on the unchanged scene: a frame was read, no zone satisfies the
    conditions, and [getPOI] returns [distanceMM] = MAX_CALIBRATION + 1 = 2001
    where the no-detection value is -1; the other fields are as for no
    detection. *)
Theorem getPOI_no_detection_distance :
  (forall y x, on_grid example_globals y x ->
     qualifies example_globals (adjustedData_of example_globals frame_empty) y x = false) /\
  getPOI example_globals (RangingData frame_empty) example_clock example_POI =
    {| POI.gotNewSensorData := true;
       POI.hasDetection := false;
       POI.x := -255;
       POI.y := -255;
       POI.distanceMM := 2001;
       POI.detectedAtMS := -1;
       POI.calibrationDistMM := -1;
       POI.surroundingHits := 0 |}.
Proof.
  split; [|vm_compute; reflexivity].
  intros y x [Hx Hy]. change (imageWidth example_globals) with 8 in Hx, Hy.
  assert (Ex : x = 0 \/ x = 1 \/ x = 2 \/ x = 3 \/ x = 4 \/ x = 5 \/ x = 6 \/ x = 7) by lia.
  assert (Ey : y = 0 \/ y = 1 \/ y = 2 \/ y = 3 \/ y = 4 \/ y = 5 \/ y = 6 \/ y = 7) by lia.
  clear Hx Hy.
  decompose [or] Ex; decompose [or] Ey; subst x y; vm_compute; reflexivity.
Qed.

(** C3 on two frames: a first frame with a detection in the corner
    x = 0, y = 0 is suppressed; the next frame has its detection in the
    opposite corner x = 7, y = 7, and the filter reports it, the count
    being 2 and the tracked cell still (0, 0): the cell is not compared. *)
Theorem filter_confirms_detection_elsewhere :
  let c1 := (RangingData frame_near_origin, example_clock) in
  let c2 := (RangingData frame_far_corner, example_clock) in
  let raw1 := getPOI example_globals (fst c1) (snd c1) example_POI in
  let raw2 := getPOI example_globals (fst c2) (snd c2) example_POI in
  let after1 := run example_globals [c1] DebounceState_init example_POI in
  let after2 := run example_globals [c1; c2] DebounceState_init example_POI in
  (POI.hasDetection raw1 = true /\ POI.x raw1 = 0 /\ POI.y raw1 = 0) /\
  (POI.hasDetection raw2 = true /\ POI.x raw2 = 7 /\ POI.y raw2 = 7) /\
  (POI.hasDetection (snd after1) = false /\
   currentX (fst after1) = 0 /\ currentY (fst after1) = 0 /\
   sequentialFramesWithHit (fst after1) = 1) /\
  (POI.hasDetection (snd after2) = true /\
   POI.x (snd after2) = 7 /\ POI.y (snd after2) = 7 /\
   currentX (fst after2) = 0 /\ currentY (fst after2) = 0 /\
   sequentialFramesWithHit (fst after2) = 2).
Proof. vm_compute. repeat split. Qed.

(** Whatever cell is tracked and wherever the detection is, a frame with a
    detection met while tracking raises the count and leaves the tracked
    cell alone: the branch that would re-anchor it is never taken. *)
Lemma temporalFilter_never_reanchors (st : DebounceState) (p : pointOfInterest) :
  waitingFirstDetection st = false ->
  POI.gotNewSensorData p = true -> POI.hasDetection p = true ->
  sequentialFramesWithHit (fst (temporalFilter st p)) = sequentialFramesWithHit st + 1 /\
  currentX (fst (temporalFilter st p)) = currentX st /\
  currentY (fst (temporalFilter st p)) = currentY st /\
  (1 <= sequentialFramesWithHit st -> snd (temporalFilter st p) = p).
Proof.
  intros Hw H1 H2.
  destruct (temporalFilter_detection st p H1 H2) as (_ & Hn & Hx & Hy & Hq).
  rewrite Hw in Hn, Hx, Hy, Hq. repeat split; try assumption.
  intros Hge. rewrite Hq.
  replace (sequentialFramesWithHit st + 1 >=? FRAMES_FOR_GOOD_HIT) with true
    by (unfold FRAMES_FOR_GOOD_HIT; lia).
  reflexivity.
Qed.

(** ** The theorems at concrete inputs *)

Lemma processMeasuredData_classifies_witness :
  aget (processMeasuredData example_globals frame_near_origin (replicate 64 0)) 0 = 400 /\
  tag_of (aget (processMeasuredData example_globals frame_near_origin (replicate 64 0)) 0)
    = Some (Valid 400).
Proof.
  apply (processMeasuredData_classifies example_globals frame_near_origin (replicate 64 0) 0).
  - reflexivity.
  - unfold RawFrame_ok. vm_compute distance_mm. repeat constructor; lia.
  - simpl. lia.
Defined.

Lemma unchanged_scene_is_background_witness :
  aget (processMeasuredData example_globals frame_empty (replicate 64 0)) 0 = -3.
Proof.
  apply (proj1 (unchanged_scene_is_background example_globals frame_empty (replicate 64 0)
                  eq_refl) 0).
  - simpl. lia.
  - vm_compute. split; discriminate.
  - reflexivity.
  - reflexivity.
Defined.

Lemma calibration_in_range_witness :
  aget (initTOF_calibration (example_frame [(0, 0); (1, 2500)]) (replicate 64 0)) 0 = 2000 /\
  aget (initTOF_calibration (example_frame [(0, 0); (1, 2500)]) (replicate 64 0)) 1 = 2000 /\
  aget (initTOF_calibration (example_frame [(0, 0); (1, 2500)]) (replicate 64 0)) 2 = 1000.
Proof.
  assert (Hok : RawFrame_ok (example_frame [(0, 0); (1, 2500)]))
    by (unfold RawFrame_ok; vm_compute distance_mm; repeat constructor; lia).
  split; [|split].
  - apply (calibration_in_range (example_frame [(0, 0); (1, 2500)]) (replicate 64 0) 0
             eq_refl Hok); [lia | left; reflexivity].
  - apply (calibration_in_range (example_frame [(0, 0); (1, 2500)]) (replicate 64 0) 1
             eq_refl Hok); [lia | right; reflexivity].
  - apply (calibration_in_range (example_frame [(0, 0); (1, 2500)]) (replicate 64 0) 2
             eq_refl Hok); [lia | discriminate | discriminate].
Defined.

Lemma valid_closer_than_calibration_witness :
  aget (adjustedData_of example_globals frame_near_origin) 0 = 400 /\
  aget (adjustedData_of example_globals frame_near_origin) 0
    < aget (calibration example_globals) 0.
Proof.
  split; [reflexivity|].
  apply (valid_closer_than_calibration example_globals frame_near_origin).
  - unfold RawFrame_ok. vm_compute distance_mm. repeat constructor; lia.
  - lia.
  - reflexivity.
Defined.

Lemma getPOI_selection_supported_witness :
  POI.hasDetection
    (getPOI example_globals (RangingData frame_near_origin) example_clock example_POI) = true /\
  3 <= POI.surroundingHits
         (getPOI example_globals (RangingData frame_near_origin) example_clock example_POI).
Proof.
  split; [reflexivity|].
  destruct (getPOI_selection_supported example_globals (RangingData frame_near_origin)
              example_clock example_POI eq_refl) as (m & _ & _ & H3 & Hs & Hhits).
  rewrite Hhits, <- Hs. exact H3.
Defined.

Lemma getPOI_tie_first_witness :
  POI.hasDetection
    (getPOI example_globals (RangingData frame_tie) example_clock example_POI) = true /\
  POI.y (getPOI example_globals (RangingData frame_tie) example_clock example_POI) = 1 /\
  POI.x (getPOI example_globals (RangingData frame_tie) example_clock example_POI) = 1.
Proof.
  destruct (getPOI_tie_first example_globals frame_tie example_clock example_POI 1 1 1 5)
    as (Hd & _ & Hfirst).
  - unfold RawFrame_ok. vm_compute distance_mm. repeat constructor; lia.
  - split; simpl; lia.
  - split; simpl; lia.
  - vm_compute. reflexivity.
  - vm_compute. reflexivity.
  - reflexivity.
  - right. lia.
  - split; [exact Hd|]. split; reflexivity.
Defined.

Lemma detection_loss_resets_debounce_witness :
  POI.hasDetection (snd (run example_globals
    ((RangingData frame_empty, example_clock)
       :: [(DataNotReady, example_clock)] ++ [(RangingData frame_near_origin, example_clock)])
    example_tracking example_POI)) = false /\
  POI.hasDetection (snd (run example_globals
    (((RangingData frame_empty, example_clock)
        :: [(DataNotReady, example_clock)] ++ [(RangingData frame_near_origin, example_clock)])
       ++ [(RangingFailed, example_clock)] ++ [(RangingData frame_far_corner, example_clock)])
    example_tracking example_POI)) = true.
Proof.
  destruct (detection_loss_resets_debounce example_globals example_tracking example_POI
              (RangingData frame_empty, example_clock)
              (RangingData frame_near_origin, example_clock)
              (RangingData frame_far_corner, example_clock)
              [(DataNotReady, example_clock)] [(RangingFailed, example_clock)])
    as (H1 & _ & H2 & _).
  - vm_compute. reflexivity.
  - repeat constructor.
  - vm_compute. reflexivity.
  - repeat constructor.
  - vm_compute. reflexivity.
  - split; [exact H1 | exact H2].
Defined.

(* ================================================================== *)
(** * Further properties of the code *)

(** ** initTOF: the search for two similar frames *)

Lemma frames_of_app (l1 l2 : list sensor_poll) :
  frames_of (l1 ++ l2) = frames_of l1 ++ frames_of l2.
Proof. unfold frames_of. apply flat_map_app. Qed.

Lemma last_sum_snoc (res : Z) (frames : list VL53L5CX_ResultsData) (m : VL53L5CX_ResultsData) :
  last_sum res (frames ++ [m]) = sum_of_distances res m.
Proof. unfold last_sum. rewrite rev_unit. reflexivity. Qed.

Lemma initTOF_iteration_idle (res : Z) (poll : sensor_poll) (st : calibration_search) :
  frames_of [poll] = [] -> frameCount st <= 500 ->
  initTOF_iteration res poll st = st.
Proof.
  intros Hp Hc. unfold initTOF_iteration.
  destruct poll as [| |m]; [| |discriminate Hp];
    (replace (frameCount st >? 500) with false by lia; reflexivity).
Qed.

(** Where the search stops, from a state in which it is still running. *)
Lemma initTOF_search_exit (res : Z) :
  forall (polls pre : list sensor_poll) (st st' : calibration_search),
    gotSimilarFrames st = false ->
    frameCount st = Z.of_nat (length (frames_of pre)) ->
    frameCount st <= 500 ->
    lastFrameSum st = last_sum res (frames_of pre) ->
    initTOF_search res polls st = Some st' ->
    exists used m post,
      polls = used ++ RangingData m :: post /\
      measurementData st' = m /\
      gotSimilarFrames st' = true /\
      sumOfDistances st' = sum_of_distances res m /\
      frameCount st' = Z.of_nat (length (frames_of (pre ++ used))) + 1 /\
      frameCount st' <= 501 /\
      (Z.abs (last_sum res (frames_of (pre ++ used)) - sum_of_distances res m) < 500 \/
       frameCount st' = 501) /\
      (forall u1 m' u2, used = u1 ++ RangingData m' :: u2 ->
         500 <= Z.abs (last_sum res (frames_of (pre ++ u1)) - sum_of_distances res m')).
Proof.
  induction polls as [|poll rest IH]; intros pre st st' Hg Hc Hle Hl Hs; [discriminate Hs|].
  simpl in Hs.
  assert (Hidle : frames_of [poll] = [] ->
            exists used m post,
              poll :: rest = used ++ RangingData m :: post /\
              measurementData st' = m /\
              gotSimilarFrames st' = true /\
              sumOfDistances st' = sum_of_distances res m /\
              frameCount st' = Z.of_nat (length (frames_of (pre ++ used))) + 1 /\
              frameCount st' <= 501 /\
              (Z.abs (last_sum res (frames_of (pre ++ used)) - sum_of_distances res m) < 500 \/
               frameCount st' = 501) /\
              (forall u1 m' u2, used = u1 ++ RangingData m' :: u2 ->
                 500 <= Z.abs (last_sum res (frames_of (pre ++ u1)) - sum_of_distances res m'))).
  { intros Hp. rewrite initTOF_iteration_idle in Hs by assumption. rewrite Hg in Hs.
    assert (Hf : frames_of (pre ++ [poll]) = frames_of pre)
      by (rewrite frames_of_app, Hp; apply app_nil_r).
    destruct (IH (pre ++ [poll]) st st' Hg) as (used & m & post & E & H);
      try (rewrite Hf; assumption); try assumption.
    exists (poll :: used), m, post. rewrite <- app_assoc in H. simpl in H.
    split; [rewrite E; reflexivity|].
    destruct H as (H1 & H2 & H3 & H4 & H5 & H6 & H7).
    repeat split; try assumption.
    intros u1 m' u2 Hu. destruct u1 as [|p u1]; simpl in Hu.
    - injection Hu as -> _. discriminate Hp.
    - injection Hu as -> Hu. specialize (H7 u1 m' u2 Hu).
      rewrite <- app_assoc in H7. exact H7. }
  destruct poll as [| |m0]; [apply Hidle; reflexivity | apply Hidle; reflexivity | clear Hidle].
  unfold initTOF_iteration in Hs.
  destruct (Z.abs (lastFrameSum st - sum_of_distances res m0) <? 500) eqn:Esim.
  - (* the frame is similar to the one before *)
    assert (Hst' : measurementData st' = m0 /\ gotSimilarFrames st' = true /\
                   sumOfDistances st' = sum_of_distances res m0 /\
                   frameCount st' = frameCount st + 1).
    { cbn [frameCount] in Hs. destruct (frameCount st + 1 >? 500);
        cbn [gotSimilarFrames] in Hs; injection Hs as <-; simpl; auto. }
    destruct Hst' as (H1 & H2 & H3 & H4).
    exists [], m0, rest. rewrite app_nil_r.
    repeat split; try assumption; try lia.
    intros u1 m' u2 Hu. destruct u1; discriminate Hu.
  - cbn [frameCount] in Hs.
    destruct (frameCount st + 1 >? 500) eqn:Emax; cbn [gotSimilarFrames] in Hs.
    + (* 501 frames have been read *)
      injection Hs as <-. exists [], m0, rest. rewrite app_nil_r. simpl.
      repeat split; try lia.
      intros u1 m' u2 Hu. destruct u1; discriminate Hu.
    + rewrite Hg in Hs.
      assert (Hf : frames_of (pre ++ [RangingData m0]) = frames_of pre ++ [m0])
        by (rewrite frames_of_app; reflexivity).
      match type of Hs with
      | initTOF_search _ _ ?s = _ =>
          destruct (IH (pre ++ [RangingData m0]) s st') as (used & m & post & E & H);
            [reflexivity | | | |exact Hs|]
      end.
      * rewrite Hf, length_app. simpl. lia.
      * simpl. lia.
      * rewrite Hf, last_sum_snoc. reflexivity.
      * exists (RangingData m0 :: used), m, post. rewrite <- app_assoc in H. simpl in H.
        split; [rewrite E; reflexivity|].
        destruct H as (H1 & H2 & H3 & H4 & H5 & H6 & H7).
        repeat split; try assumption.
        intros u1 m' u2 Hu. destruct u1 as [|p u1]; simpl in Hu.
        -- injection Hu as Hm _. subst m'. rewrite app_nil_r, <- Hl. lia.
        -- injection Hu as <- Hu. specialize (H7 u1 m' u2 Hu).
           rewrite <- app_assoc in H7. exact H7.
Qed.

Lemma initTOF_search_terminates (res : Z) :
  forall (polls : list sensor_poll) (st : calibration_search),
    0 <= frameCount st <= 500 ->
    501 - frameCount st <= Z.of_nat (length (frames_of polls)) ->
    exists st', initTOF_search res polls st = Some st'.
Proof.
  induction polls as [|poll rest IH]; intros st Hc Hn; [simpl in Hn; lia|].
  simpl. destruct (gotSimilarFrames (initTOF_iteration res poll st)) eqn:Eg; [eauto|].
  apply IH.
  - destruct poll as [| |m];
      try (rewrite initTOF_iteration_idle by (reflexivity || lia); lia).
    revert Eg. unfold initTOF_iteration.
    destruct (_ <? 500); cbn [frameCount];
      destruct (frameCount st + 1 >? 500) eqn:E; cbn [gotSimilarFrames frameCount];
      try discriminate; lia.
  - destruct poll as [| |m];
      try (rewrite initTOF_iteration_idle by (reflexivity || lia); exact Hn).
    revert Eg. unfold initTOF_iteration.
    change (frames_of (RangingData m :: rest)) with (m :: frames_of rest) in Hn.
    simpl length in Hn.
    destruct (_ <? 500); cbn [frameCount];
      destruct (frameCount st + 1 >? 500) eqn:E; cbn [gotSimilarFrames frameCount];
      try discriminate; lia.
Qed.

(** Answers that bring no frame leave a running search where it is. *)
Lemma initTOF_search_skip (res : Z) :
  forall (idle rest : list sensor_poll) (st : calibration_search),
    frames_of idle = [] ->
    gotSimilarFrames st = false -> frameCount st <= 500 ->
    initTOF_search res (idle ++ rest) st = initTOF_search res rest st.
Proof.
  induction idle as [|poll idle IH]; intros rest st Hf Hg Hc; [reflexivity|].
  assert (Hp : frames_of [poll] = []) by (destruct poll; [reflexivity | reflexivity | discriminate Hf]).
  assert (Hi : frames_of idle = []) by (destruct poll; [exact Hf | exact Hf | discriminate Hf]).
  simpl. rewrite initTOF_iteration_idle by assumption. rewrite Hg. apply IH; assumption.
Qed.

Lemma wait_data_ready_frames (polls polls' : list sensor_poll) :
  wait_data_ready polls = Some polls' -> frames_of polls' = frames_of polls.
Proof.
  induction polls as [|poll rest IH]; [discriminate|].
  destruct poll as [| |m]; simpl.
  - exact IH.
  - intros [= <-]. reflexivity.
  - intros [= <-]. reflexivity.
Qed.

(** X1. When the search of [initTOF] for two similar frames ends, it has just
    read a frame [m], which [measurementData] holds: either the distances of
    [m] sum to within 500 of the sum of the frame read before it (of 0 when
    [m] is the first frame), or [m] is the 501st frame read.  No frame read
    earlier was within 500 of its predecessor. *)
Theorem initTOF_search_stops (res : Z) (polls : list sensor_poll) (st' : calibration_search) :
  initTOF_search res polls calibration_search_init = Some st' ->
  exists used m post,
    polls = used ++ RangingData m :: post /\
    measurementData st' = m /\
    frameCount st' = Z.of_nat (length (frames_of used)) + 1 /\
    (Z.abs (last_sum res (frames_of used) - sum_of_distances res m) < 500 \/
     frameCount st' = 501) /\
    (forall u1 m' u2, used = u1 ++ RangingData m' :: u2 ->
       500 <= Z.abs (last_sum res (frames_of u1) - sum_of_distances res m')).
Proof.
  intros Hs.
  destruct (initTOF_search_exit res polls [] calibration_search_init st')
    as (used & m & post & H1 & H2 & _ & _ & H5 & _ & H7 & H8);
    try reflexivity; [simpl; lia | exact Hs |].
  exists used, m, post. simpl in H5, H7, H8. auto.
Qed.

(** X2. The search ends no later than the 501st frame read: answers that
    hold 501 frames or more always end it, with a frame count of at most
    501. *)
Theorem initTOF_search_enough_frames (res : Z) (polls : list sensor_poll) :
  (501 <= length (frames_of polls))%nat ->
  exists st', initTOF_search res polls calibration_search_init = Some st' /\
              1 <= frameCount st' <= 501.
Proof.
  intros Hn.
  destruct (initTOF_search_terminates res polls calibration_search_init) as [st' Hs];
    [simpl; lia | simpl; lia |].
  exists st'. split; [exact Hs|].
  destruct (initTOF_search_exit res polls [] calibration_search_init st')
    as (used & m & post & _ & _ & _ & _ & H5 & H6 & _);
    try reflexivity; [simpl; lia | exact Hs |].
  lia.
Qed.

(** X3. The first frame is compared with a sum of 0: a first frame whose
    distances sum to less than 500 ends the search at once, no second frame
    being read. *)
Theorem initTOF_search_first_frame (res : Z) (idle post : list sensor_poll)
    (m : VL53L5CX_ResultsData) :
  frames_of idle = [] ->
  Z.abs (sum_of_distances res m) < 500 ->
  initTOF_search res (idle ++ RangingData m :: post) calibration_search_init =
  Some {| gotSimilarFrames := true;
          frameCount := 1;
          sumOfDistances := sum_of_distances res m;
          lastFrameSum := 0;
          measurementData := m |}.
Proof.
  intros Hidle Hsum. rewrite initTOF_search_skip; try assumption; try reflexivity;
    [|simpl; lia].
  simpl. unfold initTOF_iteration. simpl.
  replace (Z.abs (0 - sum_of_distances res m) <? 500) with true by lia.
  reflexivity.
Qed.

(** X4. [initTOF] does not return when the sensor is not found, nor as long
    as the imager delivers no frame. *)
Theorem initTOF_needs_a_frame (im : imager) (calibration0 : list Z) :
  imager_begin im = false \/ frames_of (imager_polls im) = [] ->
  initTOF im calibration0 = None.
Proof.
  intros [Hb | Hf]; unfold initTOF; [rewrite Hb; reflexivity|].
  destruct (negb (imager_begin im)); [reflexivity|].
  destruct (wait_data_ready (imager_polls im)) as [polls|] eqn:Ew; [|reflexivity].
  apply wait_data_ready_frames in Ew. rewrite Hf in Ew.
  rewrite <- (app_nil_r polls), initTOF_search_skip; try assumption; try reflexivity.
  simpl. lia.
Qed.

(** X5. When [initTOF] returns, the calibration array was read out of one of
    the frames the imager delivered, the resolution is the one the imager
    reported and the width its integer square root (8 for 64 zones, 4 for
    16); if that frame has no negative distance, all 64 calibration values
    lie in [1, MAX_CALIBRATION]. *)
Theorem initTOF_returns (im : imager) (calibration0 : list Z) (g : globals) :
  initTOF im calibration0 = Some g ->
  imageResolution g = imager_resolution im /\
  imageWidth g = Z.sqrt (imager_resolution im) /\
  (imager_resolution im = 64 \/ imager_resolution im = 16 ->
   imageWidth g * imageWidth g = imageResolution g) /\
  exists m,
    In m (frames_of (imager_polls im)) /\
    calibration g = initTOF_calibration m calibration0 /\
    (length calibration0 = 64%nat -> RawFrame_ok m ->
     forall i, 0 <= i < 64 -> 1 <= aget (calibration g) i <= MAX_CALIBRATION).
Proof.
  unfold initTOF. destruct (negb (imager_begin im)); [discriminate|].
  destruct (wait_data_ready (imager_polls im)) as [polls|] eqn:Ew; [|discriminate].
  destruct (initTOF_search _ polls _) as [st|] eqn:Es; [|discriminate].
  intros [= <-]. cbn [imageResolution imageWidth calibration].
  split; [reflexivity|]. split; [reflexivity|]. split.
  { intros [-> | ->]; reflexivity. }
  destruct (initTOF_search_exit (imager_resolution im) polls [] calibration_search_init st)
    as (used & m & post & Hp & Hm & _);
    try reflexivity; [simpl; lia | exact Es |].
  exists m. split; [|split].
  - rewrite <- (wait_data_ready_frames _ _ Ew), Hp, frames_of_app.
    apply in_or_app. right. left. reflexivity.
  - rewrite Hm. reflexivity.
  - intros Hlen Hok i Hi. rewrite Hm, initTOF_calibration_cell by assumption.
    pose proof (aget_nonneg _ i Hok) as Hd.
    unfold initTOF_value, MAX_CALIBRATION.
    destruct ((_ =? 0) || (_ >? 2000)) eqn:E; [lia|].
    apply orb_false_iff in E. lia.
Qed.

(** ** scoreZone and avgdistZone *)

Lemma valid_zone_true (g : globals) (adj : list Z) (locY locX : Z) :
  valid_zone g adj (locY, locX) = true ->
  on_grid g locY locX /\ aget adj (locY * imageWidth g + locX) > 0.
Proof.
  unfold valid_zone, on_grid. rewrite !andb_true_iff. lia.
Qed.

Lemma valid_zone_centre (g : globals) (adj : list Z) (y x : Z) :
  on_grid g y x -> aget adj (y * imageWidth g + x) > 0 ->
  valid_zone g adj (y + 0, x + 0) = true.
Proof.
  unfold valid_zone, on_grid. rewrite !Z.add_0_r, !andb_true_iff. lia.
Qed.




Lemma avgdistZone_total (g : globals) (adj : list Z) (y x : Z) :
  on_grid g y x -> aget adj (y * imageWidth g + x) > 0 ->
  avgdistZone g (y * imageWidth g + x) adj =
  Z.quot (fst (valid_total g adj (neighbourhood y x) (0, 0)))
         (snd (valid_total g adj (neighbourhood y x) (0, 0))).
Proof.
  intros [Hx Hy] Hv. unfold avgdistZone. cbv zeta.
  replace (aget adj (y * imageWidth g + x) >? 0) with true by lia.
  destruct (zone_coordinates (imageWidth g) y x) as [-> ->]; [lia | lia |].
  assert (E : for_loop (-1) 2 (fun yIndex acc =>
                for_loop (-1) 2 (fun xIndex '(totalDist, numZones) =>
                  if (x + xIndex >=? 0) && (x + xIndex <? imageWidth g)
                     && (y + yIndex >=? 0) && (y + yIndex <? imageWidth g)
                  then if aget adj ((y + yIndex) * imageWidth g + (x + xIndex)) >? 0
                       then (totalDist + aget adj ((y + yIndex) * imageWidth g + (x + xIndex)),
                             numZones + 1)
                       else (totalDist, numZones)
                  else (totalDist, numZones)) acc) (0, 0)
              = valid_total g adj (neighbourhood y x) (0, 0)).
  { unfold valid_total. rewrite neighbourhood_offsets.
    etransitivity;
      [exact (for_loop_3x3 (fun yIndex xIndex '(totalDist, numZones) =>
         if (x + xIndex >=? 0) && (x + xIndex <? imageWidth g)
            && (y + yIndex >=? 0) && (y + yIndex <? imageWidth g)
         then if aget adj ((y + yIndex) * imageWidth g + (x + xIndex)) >? 0
              then (totalDist + aget adj ((y + yIndex) * imageWidth g + (x + xIndex)),
                    numZones + 1)
              else (totalDist, numZones)
         else (totalDist, numZones)) (0, 0))|].
    symmetry. apply fold_left_map_ext. intros [t n] [dy dx]. unfold valid_zone. cbn [fst snd].
    symmetry. apply if_andb. }
  rewrite E. destruct (valid_total g adj (neighbourhood y x) (0, 0)). reflexivity.
Qed.

Lemma valid_total_bounds (g : globals) (adj : list Z) (lo hi : Z) :
  (forall k, 0 <= k -> aget adj k > 0 -> lo <= aget adj k <= hi) ->
  forall (cells : list (Z * Z)) (t n : Z),
    0 <= n -> n * lo <= t <= n * hi -> n <= t ->
    let r := valid_total g adj cells (t, n) in
    snd r = n + Z.of_nat (length (List.filter (valid_zone g adj) cells)) /\
    snd r * lo <= fst r <= snd r * hi /\ snd r <= fst r.
Proof.
  intros Hb. induction cells as [|[ly lx] cells IH]; intros t n Hn Ht Hp; cbn zeta.
  - simpl. lia.
  - unfold valid_total in *. cbn [fold_left List.filter].
    destruct (valid_zone g adj (ly, lx)) eqn:E.
    + apply valid_zone_true in E. destruct E as [[Hlx Hly] Hv]. cbn [fst snd].
      assert (Hk : 0 <= ly * imageWidth g + lx) by nia.
      specialize (Hb _ Hk Hv).
      destruct (IH (t + aget adj (ly * imageWidth g + lx)) (n + 1)) as (H1 & H2 & H3);
        try nia.
      cbn zeta in H1, H2, H3. split; [rewrite H1; simpl length; lia|]. split; assumption.
    + apply IH; assumption.
Qed.

(** X7. For a valid zone on the grid [avgdistZone] divides by the score of
    the zone, which is at least 1, and the average it returns lies between
    the smallest and the largest valid reading; for a zone that is not
    valid it returns the zone's own (non-positive) value. *)
Theorem avgdistZone_between (g : globals) (adj : list Z) (lo hi : Z) (y x : Z) :
  on_grid g y x ->
  (forall k, 0 <= k -> aget adj k > 0 -> lo <= aget adj k <= hi) ->
  (aget adj (y * imageWidth g + x) > 0 ->
   avgdistZone g (y * imageWidth g + x) adj =
     Z.quot (fst (valid_total g adj (neighbourhood y x) (0, 0)))
            (scoreZone g (y * imageWidth g + x) adj) /\
   1 <= scoreZone g (y * imageWidth g + x) adj /\
   lo <= avgdistZone g (y * imageWidth g + x) adj <= hi) /\
  (aget adj (y * imageWidth g + x) <= 0 ->
   avgdistZone g (y * imageWidth g + x) adj = aget adj (y * imageWidth g + x)).
Proof.
  intros Hg Hb. split.
  - intros Hv. rewrite avgdistZone_total by assumption.
    destruct (valid_total_bounds g adj lo hi Hb (neighbourhood y x) 0 0) as (Hn & Ht & Hp);
      try lia.
    cbn zeta in Hn, Ht, Hp. rewrite scoreZone_support by exact Hg. unfold support.
    assert (Hone : (1 <= length (List.filter (valid_zone g adj) (neighbourhood y x)))%nat).
    { assert (Hin : In (y + 0, x + 0) (List.filter (valid_zone g adj) (neighbourhood y x))).
      { apply filter_In. split; [simpl; tauto | apply valid_zone_centre; assumption]. }
      destruct (List.filter _ _); [destruct Hin | simpl; lia]. }
    split; [f_equal; lia|]. split; [lia|].
    set (t := fst _) in *. set (n := snd _) in *.
    rewrite Z.quot_div_nonneg by lia. split.
    + apply Z.div_le_lower_bound; lia.
    + apply Z.div_le_upper_bound; lia.
  - intros Hv. unfold avgdistZone. cbv zeta.
    replace (aget adj (y * imageWidth g + x) >? 0) with false by lia. reflexivity.
Qed.

(** ** What getPOI reports *)

Lemma getPOI_scan_fields (g : globals) (adj : list Z) (millis : Z -> Z) (p0 : pointOfInterest) :
  POI.hasDetection p0 = false ->
  let r := getPOI_scan g adj millis p0 in
  POI.hasDetection r = true ->
  POI.calibrationDistMM r = aget (calibration g) (POI.y r * imageWidth g + POI.x r) /\
  POI.detectedAtMS r = millis (POI.y r * imageWidth g + POI.x r).
Proof.
  intros Hp0. cbv zeta. unfold getPOI_scan, for_loop.
  apply (for_loop_from_pres (fun q =>
           POI.hasDetection q = true ->
           POI.calibrationDistMM q = aget (calibration g) (POI.y q * imageWidth g + POI.x q) /\
           POI.detectedAtMS q = millis (POI.y q * imageWidth g + POI.x q)));
    [|congruence].
  intros y s Hs.
  apply (for_loop_from_pres (fun q =>
           POI.hasDetection q = true ->
           POI.calibrationDistMM q = aget (calibration g) (POI.y q * imageWidth g + POI.x q) /\
           POI.detectedAtMS q = millis (POI.y q * imageWidth g + POI.x q)));
    [|exact Hs].
  intros x s' Hs'. unfold getPOI_zone.
  destruct (getPOI_test g adj y x s'); [simpl; auto | exact Hs'].
Qed.


(** X9. When [getPOI] reports a detection, a frame was read, the zone
    (x, y) lies on the grid, [distanceMM] is the raw reading of that zone,
    between 1 and MAX_CALIBRATION and closer than [calibrationDistMM], the
    calibration value of the zone, by more than NOISE_RANGE, and
    [detectedAtMS] is the clock read while the zone was examined. *)
Theorem getPOI_detection_fields (g : globals) (poll : sensor_poll) (millis : Z -> Z)
    (pPOI : pointOfInterest) :
  let r := getPOI g poll millis pPOI in
  let zone := POI.y r * imageWidth g + POI.x r in
  POI.hasDetection r = true ->
  POI.gotNewSensorData r = true /\
  on_grid g (POI.y r) (POI.x r) /\
  POI.calibrationDistMM r = aget (calibration g) zone /\
  POI.detectedAtMS r = millis zone /\
  exists m, poll = RangingData m /\
    (RawFrame_ok m ->
     POI.distanceMM r = aget (distance_mm m) zone /\
     1 <= POI.distanceMM r <= MAX_CALIBRATION /\
     POI.distanceMM r < POI.calibrationDistMM r - NOISE_RANGE).
Proof.
  cbv zeta. intros Hd. destruct poll as [| |m]; try discriminate Hd.
  rewrite getPOI_ranging in Hd |- *.
  set (p0 := getPOI_start (getPOI_reset pPOI)) in *.
  destruct (scan_selected_all g (adjustedData_of g m) millis p0 eq_refl) as (_ & Hsel).
  destruct (Hsel Hd) as (Hg & _ & _ & Hdist & _).
  destruct (getPOI_scan_fields g (adjustedData_of g m) millis p0 eq_refl Hd) as [Hcal Hms].
  set (r := getPOI_scan g (adjustedData_of g m) millis p0) in *.
  split; [unfold r; rewrite getPOI_scan_gotNewSensorData; reflexivity|].
  split; [exact Hg|]. split; [exact Hcal|]. split; [exact Hms|].
  exists m. split; [reflexivity|]. intros Hm.
  assert (Hz : 0 <= POI.y r * imageWidth g + POI.x r) by (destruct Hg; nia).
  assert (Hq : qualifies g (adjustedData_of g m) (POI.y r) (POI.x r) = true)
    by (apply (Hsel Hd)).
  assert (Hv : aget (adjustedData_of g m) (POI.y r * imageWidth g + POI.x r) > 0).
  { revert Hq. unfold qualifies. cbv zeta. rewrite !andb_true_iff. lia. }
  destruct (adjustedData_of_valid g m _ Hm Hz Hv) as [Hraw Hlt].
  pose proof (adjustedData_of_bounded g m Hm _ Hz) as Hle.
  rewrite Hcal, Hdist. repeat split; lia.
Qed.

Lemma POI_eq (p q : pointOfInterest) :
  same_but_hits p q -> POI.surroundingHits p = POI.surroundingHits q -> p = q.
Proof.
  destruct p, q. unfold same_but_hits. simpl. intros (-> & -> & -> & -> & -> & -> & ->) ->.
  reflexivity.
Qed.

(** X10. [getPOI] overwrites every field of the structure it is given except
    [surroundingHits]: when no detection is reported that field is left as
    it was, and when a detection is reported the result does not depend on
    the structure passed in at all. *)
Theorem getPOI_structure_passed_in (g : globals) (poll : sensor_poll) (millis : Z -> Z)
    (p q : pointOfInterest) :
  same_but_hits (getPOI g poll millis p) (getPOI g poll millis q) /\
  (POI.hasDetection (getPOI g poll millis p) = false ->
   POI.surroundingHits (getPOI g poll millis p) = POI.surroundingHits p) /\
  (POI.hasDetection (getPOI g poll millis p) = true ->
   getPOI g poll millis p = getPOI g poll millis q).
Proof.
  split; [apply getPOI_same|]. split.
  - destruct poll as [| |m]; try reflexivity. rewrite getPOI_ranging. intros Hd.
    destruct (scan_selected_all g (adjustedData_of g m) millis
                (getPOI_start (getPOI_reset p)) eq_refl) as (Hnone & _).
    rewrite (Hnone Hd). reflexivity.
  - intros Hd. apply POI_eq; [apply getPOI_same|].
    destruct poll as [| |m]; try discriminate Hd.
    pose proof (getPOI_same g (RangingData m) millis p q) as (_ & Hdq & Hx & Hy & _).
    rewrite Hd in Hdq. symmetry in Hdq.
    rewrite !getPOI_ranging in *.
    destruct (scan_selected_all g (adjustedData_of g m) millis
                (getPOI_start (getPOI_reset p)) eq_refl) as (_ & Hp).
    destruct (scan_selected_all g (adjustedData_of g m) millis
                (getPOI_start (getPOI_reset q)) eq_refl) as (_ & Hq).
    destruct (Hp Hd) as (_ & _ & _ & _ & Hhp). destruct (Hq Hdq) as (_ & _ & _ & _ & Hhq).
    rewrite Hhp, Hhq, Hx, Hy. reflexivity.
Qed.

(** ** What the temporal filter reports *)

(** X11. [getPOITemporalFiltered] never alters what [getPOI] found other
    than by clearing [hasDetection]: its result is the structure [getPOI]
    filled in, or that structure, which had a detection, with
    [hasDetection] false. *)
Theorem filter_only_clears_hasDetection (g : globals) (poll : sensor_poll) (millis : Z -> Z)
    (st : DebounceState) (pPOI : pointOfInterest) :
  let raw := getPOI g poll millis pPOI in
  let out := snd (getPOITemporalFiltered g poll millis st pPOI) in
  out = raw \/
  (POI.gotNewSensorData raw = true /\ POI.hasDetection raw = true /\
   out = set_hasDetection false raw).
Proof.
  cbv zeta. unfold getPOITemporalFiltered.
  set (raw := getPOI g poll millis pPOI).
  destruct (POI.gotNewSensorData raw) eqn:Hn;
    [|left; rewrite temporalFilter_no_new_data by exact Hn; reflexivity].
  destruct (POI.hasDetection raw) eqn:Hd;
    [|left; rewrite temporalFilter_no_detection by assumption; reflexivity].
  destruct (temporalFilter_detection st raw Hn Hd) as (_ & _ & _ & _ & Hq).
  rewrite Hq. destruct (_ >=? FRAMES_FOR_GOOD_HIT); [left; reflexivity | right; auto].
Qed.






(** ** prettyPrint *)

Lemma for_down_from_app {A : Type} (f : Z -> A) :
  forall (n : nat) (i : Z) (out : list A),
    for_down_from n i (fun x out => out ++ [f x]) out = out ++ map f (down_from n i).
Proof.
  induction n as [|n IH]; intros i out; simpl.
  - rewrite app_nil_r. reflexivity.
  - rewrite IH, <- app_assoc. reflexivity.
Qed.

Lemma prettyPrint_row_events (g : globals) (dataArray : list Z) (y lines : Z)
    (out : list serial_event) :
  prettyPrint_row g dataArray y (lines, out) = (lines + 1, out ++ row_events g dataArray y).
Proof.
  unfold prettyPrint_row, row_events, for_down.
  rewrite for_down_from_app.
  replace (Z.to_nat (imageWidth g - 1 + 1)) with (Z.to_nat (imageWidth g)) by (f_equal; lia).
  rewrite <- !app_assoc. reflexivity.
Qed.

Lemma prettyPrint_rows_events (g : globals) (dataArray : list Z) :
  1 <= imageWidth g ->
  forall (k fuel : nat) (r lines : Z) (out : list serial_event),
    0 <= r -> r + Z.of_nat k = imageWidth g -> (k < fuel)%nat ->
    prettyPrint_rows fuel g dataArray (r * imageWidth g) (lines, out) =
    Some (lines + Z.of_nat k,
          out ++ flat_map (fun r => row_events g dataArray (r * imageWidth g)) (up_from k r)).
Proof.
  intros HW.
  induction k as [|k IH]; intros fuel r lines out Hr Hk Hf;
    (destruct fuel as [|fuel]; [lia|]); cbn [prettyPrint_rows].
  - replace (r * imageWidth g <=? imageWidth g * (imageWidth g - 1)) with false by nia.
    simpl. rewrite app_nil_r, Z.add_0_r. reflexivity.
  - replace (r * imageWidth g <=? imageWidth g * (imageWidth g - 1)) with true by nia.
    rewrite prettyPrint_row_events.
    replace (r * imageWidth g + imageWidth g) with ((r + 1) * imageWidth g) by lia.
    rewrite IH by lia. cbn [flat_map up_from]. rewrite <- app_assoc.
    f_equal. f_equal. lia.
Qed.

Lemma newlines_app (a b : list serial_event) : newlines (a ++ b) = newlines a + newlines b.
Proof. unfold newlines. rewrite List.filter_app, length_app. lia. Qed.

Lemma printed_data_app (a b : list serial_event) :
  printed_data (a ++ b) = printed_data a ++ printed_data b.
Proof. unfold printed_data. apply flat_map_app. Qed.

Lemma row_events_newlines (g : globals) (dataArray : list Z) (y : Z) :
  newlines (row_events g dataArray y) = 1.
Proof.
  unfold row_events. rewrite !newlines_app.
  assert (H : forall l, newlines (map (fun x => Serial_printf "%-5ld" (aget dataArray (x + y))) l) = 0)
    by (induction l as [|a l IH]; [reflexivity | exact IH]).
  rewrite H. reflexivity.
Qed.

Lemma row_events_data (g : globals) (dataArray : list Z) (y : Z) :
  printed_data (row_events g dataArray y) =
  map (fun x => aget dataArray (x + y)) (down_from (Z.to_nat (imageWidth g)) (imageWidth g - 1)).
Proof.
  unfold row_events. rewrite !printed_data_app. simpl (printed_data [_; _]).
  simpl (printed_data [_]). rewrite app_nil_r. simpl app.
  induction (down_from _ _) as [|a l IH]; [reflexivity|].
  simpl. f_equal. exact IH.
Qed.

(** X14. For a width of at least 1 and enough fuel, [prettyPrint] returns
    imageWidth + 1, which is the number of lines it has written; the data
    it has printed are the cells of one row after the other, rows in
    ascending order and the cells of each row from the last one down to the
    first. *)
Theorem prettyPrint_lines (fuel : nat) (g : globals) (dataArray : list Z)
    (out : list serial_event) :
  1 <= imageWidth g ->
  (Z.to_nat (imageWidth g) < fuel)%nat ->
  exists out',
    prettyPrint fuel g dataArray out = Some (imageWidth g + 1, out') /\
    newlines out' = newlines out + (imageWidth g + 1) /\
    printed_data out' =
      printed_data out ++
      flat_map (fun r => map (fun x => aget dataArray (x + r * imageWidth g))
                             (down_from (Z.to_nat (imageWidth g)) (imageWidth g - 1)))
               (up_from (Z.to_nat (imageWidth g)) 0).
Proof.
  intros HW Hfuel. unfold prettyPrint. cbv zeta. unfold for_down.
  rewrite for_down_from_app.
  pose proof (prettyPrint_rows_events g dataArray HW (Z.to_nat (imageWidth g)) fuel 0 (0 + 1))
    as H.
  rewrite Z.mul_0_l in H. rewrite H by lia. clear H.
  eexists. split; [f_equal; f_equal; lia|]. split.
  - rewrite !newlines_app.
    assert (Hh : forall l, newlines (map (fun i => Serial_printf "%-5i" i) l) = 0)
      by (induction l as [|a l IH]; [reflexivity | exact IH]).
    rewrite Hh.
    assert (Hr : forall l, newlines (flat_map (fun r => row_events g dataArray (r * imageWidth g)) l)
                           = Z.of_nat (length l)).
    { induction l as [|a l IH]; [reflexivity|].
      cbn [flat_map]. rewrite newlines_app, row_events_newlines, IH. simpl length. lia. }
    rewrite Hr.
    assert (Hl : forall k r, length (up_from k r) = k)
      by (induction k as [|k IH]; intros r; simpl; [reflexivity | rewrite IH; reflexivity]).
    rewrite Hl. change (newlines [Serial_print _]) with 0.
    change (newlines [Serial_println]) with 1. lia.
  - rewrite !printed_data_app.
    assert (Hh : forall l, printed_data (map (fun i => Serial_printf "%-5i" i) l) = [])
      by (induction l as [|a l IH]; [reflexivity | exact IH]).
    rewrite Hh. simpl (printed_data [_]). rewrite !app_nil_r.
    f_equal. induction (up_from _ _) as [|r l IH]; [reflexivity|].
    cbn [flat_map]. rewrite printed_data_app, row_events_data, IH. reflexivity.
Qed.

(** ** The event codes *)

(** X15. The events other than [No_event] have the values 0 to
    NUM_TOF_EVENTS - 1, each value once: a table of NUM_TOF_EVENTS entries
    indexed by the event value has one entry for each of them and no other.
    [No_event] (-1) is outside. *)
Theorem TOF_detect_values :
  (forall e, e <> No_event <-> 0 <= TOF_detect_value e < NUM_TOF_EVENTS) /\
  (forall e1 e2, TOF_detect_value e1 = TOF_detect_value e2 -> e1 = e2) /\
  (forall v, 0 <= v < NUM_TOF_EVENTS -> exists e, TOF_detect_value e = v).
Proof.
  unfold NUM_TOF_EVENTS. split; [|split].
  - intros e. destruct e; simpl; split; intros; try lia; try congruence.
  - intros e1 e2. destruct e1, e2; simpl; intros; try reflexivity; lia.
  - intros v Hv.
    assert (Hc : v = 0 \/ v = 1 \/ v = 2 \/ v = 3 \/ v = 4 \/ v = 5) by lia.
    decompose [or] Hc; subst v;
      [exists No_change_in_fov | exists Person_entered_fov | exists Person_left_fov
      | exists Person_too_close | exists Person_left_quickly | exists Puppet_is_ready];
      reflexivity.
Qed.

(** ** Valid cells, and scenes without intrusion *)

(** X16. For any 16-bit reading, negative ones included, a cell comes out of
    [processMeasuredData] valid (positive) exactly when its status is 5, 6
    or 9, its distance lies in 1..MAX_CALIBRATION and is closer than the
    calibration value by more than NOISE_RANGE; the cell then holds the
    distance. *)
Theorem processMeasuredData_valid_iff (g : globals) (m : VL53L5CX_ResultsData)
    (adjustedData : list Z) (i : Z) :
  Z.of_nat (length adjustedData) = imageResolution g ->
  0 <= i < imageResolution g ->
  -32768 <= aget (distance_mm m) i <= 32767 ->
  (aget (processMeasuredData g m adjustedData) i > 0 <->
   good_status (aget (target_status m) i) = true /\
   1 <= aget (distance_mm m) i <= MAX_CALIBRATION /\
   aget (distance_mm m) i < aget (calibration g) i - NOISE_RANGE) /\
  (aget (processMeasuredData g m adjustedData) i > 0 ->
   aget (processMeasuredData g m adjustedData) i = aget (distance_mm m) i).
Proof.
  intros Hlen Hi Hd. rewrite processMeasuredData_cell_value by assumption.
  unfold processMeasuredData_value, good_status, MAX_CALIBRATION, NOISE_RANGE. cbv zeta.
  set (s := aget (target_status m) i). set (d := aget (distance_mm m) i) in *.
  set (c := aget (calibration g) i).
  destruct (s =? 5) eqn:E5; destruct (s =? 9) eqn:E9; destruct (s =? 6) eqn:E6;
    cbn [negb andb orb];
    try (split; [split; [lia | intros [Hs _]; discriminate Hs] | lia]);
    (destruct ((d =? 0) || (d >? 2000)) eqn:Er;
     [apply orb_true_iff in Er; split; [split; [lia | intros (_ & H1 & _); lia] | lia]|];
     apply orb_false_iff in Er;
     destruct ((Z.abs (d - c) <=? 50) || (d >? c)) eqn:Eb;
     [apply orb_true_iff in Eb; split; [split; [lia | intros (_ & _ & H2); lia] | lia]|];
     apply orb_false_iff in Eb; rewrite int16_t_small by lia;
     split; [split; [intros Hpos; repeat split; lia | lia] | reflexivity]).
Qed.

Lemma qualifies_needs_valid (g : globals) (adj : list Z) (y x : Z) :
  aget adj (y * imageWidth g + x) <= 0 -> qualifies g adj y x = false.
Proof.
  intros H. unfold qualifies. cbv zeta.
  replace (aget adj (y * imageWidth g + x) >? 0) with false by lia. reflexivity.
Qed.

Lemma no_intrusion_value (g : globals) (m : VL53L5CX_ResultsData) (i : Z) :
  aget (distance_mm m) i = 0 \/ aget (distance_mm m) i > MAX_CALIBRATION \/
  aget (calibration g) i - NOISE_RANGE <= aget (distance_mm m) i ->
  processMeasuredData_value g m i <= 0.
Proof.
  unfold processMeasuredData_value, MAX_CALIBRATION, NOISE_RANGE. cbv zeta.
  set (d := aget (distance_mm m) i). set (c := aget (calibration g) i). intros H.
  destruct (negb _ && negb _ && negb _); [lia|].
  destruct ((d =? 0) || (d >? 2000)) eqn:Er; [lia|]. apply orb_false_iff in Er.
  destruct ((Z.abs (d - c) <=? 50) || (d >? c)) eqn:Eb; [lia|]. apply orb_false_iff in Eb.
  lia.
Qed.

(** X17. A frame in which no zone reads closer than its calibration value
    less NOISE_RANGE (readings of 0 or above MAX_CALIBRATION aside) never
    yields a detection, whatever the status codes: [getPOI] returns
    [hasDetection = false] with x = y = -255. *)
Theorem getPOI_no_intrusion (g : globals) (m : VL53L5CX_ResultsData) (millis : Z -> Z)
    (pPOI : pointOfInterest) :
  (forall i, 0 <= i < imageResolution g ->
     aget (distance_mm m) i = 0 \/ aget (distance_mm m) i > MAX_CALIBRATION \/
     aget (calibration g) i - NOISE_RANGE <= aget (distance_mm m) i) ->
  getPOI g (RangingData m) millis pPOI = getPOI_start (getPOI_reset pPOI) /\
  POI.hasDetection (getPOI g (RangingData m) millis pPOI) = false /\
  POI.x (getPOI g (RangingData m) millis pPOI) = -255 /\
  POI.y (getPOI g (RangingData m) millis pPOI) = -255.
Proof.
  intros H.
  assert (E : getPOI g (RangingData m) millis pPOI = getPOI_start (getPOI_reset pPOI)).
  { apply getPOI_nothing_qualifies. intros y x [Hx Hy]. apply qualifies_needs_valid.
    assert (Hz : 0 <= y * imageWidth g + x) by nia.
    destruct (Z_lt_le_dec (y * imageWidth g + x) (imageResolution g)) as [Hin|Hout].
    - rewrite adjustedData_of_cell by lia. apply no_intrusion_value, H. lia.
    - rewrite adjustedData_of_outside by exact Hout. lia. }
  rewrite E. repeat split.
Qed.

(** X18. Calibration followed by the same scene: once [calibration] has been
    read out of a frame, a later frame with the same distances, whatever its
    status codes, yields no detection, and the temporal filter, whatever its
    state, reports none either. *)
Theorem calibrated_scene_no_detection (m0 m : VL53L5CX_ResultsData) (calibration0 : list Z)
    (resolution width : Z) (millis : Z -> Z) (st : DebounceState) (pPOI : pointOfInterest) :
  length calibration0 = 64%nat ->
  resolution <= 64 ->
  distance_mm m = distance_mm m0 ->
  let g := {| calibration := initTOF_calibration m0 calibration0;
              imageResolution := resolution;
              imageWidth := width |} in
  POI.hasDetection (getPOI g (RangingData m) millis pPOI) = false /\
  POI.hasDetection (snd (getPOITemporalFiltered g (RangingData m) millis st pPOI)) = false /\
  waitingFirstDetection (fst (getPOITemporalFiltered g (RangingData m) millis st pPOI)) = true.
Proof.
  intros Hlen Hres Hsame g.
  assert (Hno : forall i, 0 <= i < imageResolution g ->
     aget (distance_mm m) i = 0 \/ aget (distance_mm m) i > MAX_CALIBRATION \/
     aget (calibration g) i - NOISE_RANGE <= aget (distance_mm m) i).
  { intros i Hi. subst g. cbn [calibration imageResolution] in *.
    rewrite initTOF_calibration_cell by (assumption || lia). rewrite Hsame.
    unfold initTOF_value, MAX_CALIBRATION, NOISE_RANGE.
    destruct ((_ =? 0) || (_ >? 2000)) eqn:E; [apply orb_true_iff in E; lia | lia]. }
  assert (E : getPOI g (RangingData m) millis pPOI = getPOI_start (getPOI_reset pPOI)).
  { apply getPOI_nothing_qualifies. intros y x [Hx Hy]. apply qualifies_needs_valid.
    assert (Hz : 0 <= y * imageWidth g + x) by nia.
    destruct (Z_lt_le_dec (y * imageWidth g + x) (imageResolution g)) as [Hin|Hout].
    - rewrite adjustedData_of_cell by lia. apply no_intrusion_value, Hno. lia.
    - rewrite adjustedData_of_outside by exact Hout. lia. }
  unfold getPOITemporalFiltered. rewrite E.
  rewrite temporalFilter_no_detection by reflexivity. repeat split.
Qed.

(** ** Cycles without new data; cells that are not written *)

Lemma temporalFilter_same (st : DebounceState) (p q : pointOfInterest) :
  same_but_hits p q ->
  fst (temporalFilter st p) = fst (temporalFilter st q) /\
  same_but_hits (snd (temporalFilter st p)) (snd (temporalFilter st q)).
Proof.
  intros H. pose proof H as (H1 & H2 & H3 & H4 & H5 & H6 & H7).
  unfold temporalFilter, set_hasDetection. cbv zeta. cbn [POI.x POI.y].
  rewrite H1, H2, H3, H4.
  repeat match goal with
  | |- context [if ?b then _ else _] => destruct b
  end; cbn [fst snd]; (split; [reflexivity | first [exact H | unfold same_but_hits; simpl; tauto]]).
Qed.

Lemma run_same (g : globals) :
  forall (cycles : list cycle) (st : DebounceState) (p q : pointOfInterest),
    fst (run g cycles st p) = fst (run g cycles st q) /\
    (cycles <> [] -> same_but_hits (snd (run g cycles st p)) (snd (run g cycles st q))).
Proof.
  induction cycles as [|c cycles IH]; intros st p q; [split; [reflexivity | congruence]|].
  rewrite !run_cons. unfold getPOITemporalFiltered.
  destruct (temporalFilter_same st _ _ (getPOI_same g (fst c) (snd c) p q)) as [Hst Hout].
  rewrite Hst.
  destruct (IH (fst (temporalFilter st (getPOI g (fst c) (snd c) q)))
              (snd (temporalFilter st (getPOI g (fst c) (snd c) p)))
              (snd (temporalFilter st (getPOI g (fst c) (snd c) q)))) as [IH1 IH2].
  split; [exact IH1|]. intros _.
  destruct cycles as [|c' cycles]; [exact Hout | apply IH2; discriminate].
Qed.

(** X19. Cycles without new data are transparent: inserting any number of
    them anywhere in a sequence of cycles changes neither the debounce
    statics at the end nor, [surroundingHits] aside, what the last cycle
    reports. *)
Theorem idle_cycles_transparent (g : globals) (before_ idle after : list cycle)
    (st : DebounceState) (p : pointOfInterest) :
  Forall (fun c => raw_outcome g c = NoNewData) idle ->
  fst (run g (before_ ++ idle ++ after) st p) = fst (run g (before_ ++ after) st p) /\
  (after <> [] ->
   same_but_hits (snd (run g (before_ ++ idle ++ after) st p))
                 (snd (run g (before_ ++ after) st p))).
Proof.
  intros Hidle. rewrite !run_app, (run_no_new_data g idle _ _ Hidle).
  apply run_same.
Qed.

(** X20. [processMeasuredData] writes the cells 0 .. imageResolution - 1 of
    [adjustedData] and no other: the array keeps its length, and a cell at
    or beyond imageResolution, as on a 4x4 imager with a 64-cell array,
    keeps its content. *)
Theorem processMeasuredData_writes (g : globals) (m : VL53L5CX_ResultsData)
    (adjustedData : list Z) :
  0 <= imageResolution g <= Z.of_nat (length adjustedData) ->
  length (processMeasuredData g m adjustedData) = length adjustedData /\
  (forall j, imageResolution g <= j ->
     aget (processMeasuredData g m adjustedData) j = aget adjustedData j) /\
  (forall j, 0 <= j < imageResolution g ->
     aget (processMeasuredData g m adjustedData) j = -1 \/
     aget (processMeasuredData g m adjustedData) j = -2 \/
     aget (processMeasuredData g m adjustedData) j = -3 \/
     aget (processMeasuredData g m adjustedData) j = int16_t (aget (distance_mm m) j)).
Proof.
  intros H. unfold processMeasuredData.
  destruct (for_loop_fill (processMeasuredData_value g m) (processMeasuredData_cell g m)
              (imageResolution g) adjustedData) as (Hlen & Hin & Hout).
  - intros k b _. apply processMeasuredData_cell_stores.
  - exact H.
  - split; [exact Hlen|]. split; [exact Hout|].
    intros j Hj. rewrite (Hin j Hj). unfold processMeasuredData_value. cbv zeta.
    repeat match goal with |- context [if ?b then _ else _] => destruct b end; auto.
Qed.

(** ** The further theorems at concrete inputs *)

Lemma initTOF_search_stops_witness :
  exists used m post,
    example_calibration_polls = used ++ RangingData m :: post /\
    measurementData example_search_result = m /\
    frameCount example_search_result = Z.of_nat (length (frames_of used)) + 1 /\
    (Z.abs (last_sum 64 (frames_of used) - sum_of_distances 64 m) < 500 \/
     frameCount example_search_result = 501) /\
    (forall u1 m' u2, used = u1 ++ RangingData m' :: u2 ->
       500 <= Z.abs (last_sum 64 (frames_of u1) - sum_of_distances 64 m')).
Proof.
  apply (initTOF_search_stops 64 example_calibration_polls example_search_result).
  vm_compute. reflexivity.
Defined.

Lemma initTOF_search_enough_frames_witness :
  exists st', initTOF_search 64 (restless_polls 251) calibration_search_init = Some st' /\
              1 <= frameCount st' <= 501.
Proof.
  apply (initTOF_search_enough_frames 64 (restless_polls 251)).
  apply Nat.leb_le. vm_compute. reflexivity.
Defined.

Lemma initTOF_search_first_frame_witness :
  initTOF_search 64 ([DataNotReady; RangingFailed]
                       ++ RangingData frame_touching :: [RangingData frame_empty])
    calibration_search_init =
  Some {| gotSimilarFrames := true;
          frameCount := 1;
          sumOfDistances := sum_of_distances 64 frame_touching;
          lastFrameSum := 0;
          measurementData := frame_touching |}.
Proof.
  apply (initTOF_search_first_frame 64 [DataNotReady; RangingFailed]
           [RangingData frame_empty] frame_touching).
  - reflexivity.
  - vm_compute. reflexivity.
Defined.

Lemma initTOF_needs_a_frame_witness :
  initTOF {| imager_begin := true; imager_resolution := 64;
             imager_polls := [DataNotReady; RangingFailed; DataNotReady] |}
          (replicate 64 0) = None.
Proof.
  apply initTOF_needs_a_frame. right. reflexivity.
Defined.

Lemma initTOF_returns_witness :
  imageResolution example_initTOF_result = 64 /\
  imageWidth example_initTOF_result = Z.sqrt 64.
Proof.
  destruct (initTOF_returns example_imager (replicate 64 0) example_initTOF_result)
    as (H1 & H2 & _).
  - vm_compute. reflexivity.
  - split; [exact H1 | exact H2].
Defined.


Lemma avgdistZone_between_witness :
  1 <= avgdistZone example_globals (0 * imageWidth example_globals + 0)
         (adjustedData_of example_globals frame_near_origin) <= MAX_CALIBRATION.
Proof.
  apply (avgdistZone_between example_globals
           (adjustedData_of example_globals frame_near_origin) 1 MAX_CALIBRATION 0 0).
  - split; simpl; lia.
  - intros k Hk Hv. split; [lia|].
    apply adjustedData_of_bounded; [|exact Hk].
    unfold RawFrame_ok. vm_compute distance_mm. repeat constructor; lia.
  - reflexivity.
Defined.


Lemma getPOI_detection_fields_witness :
  POI.gotNewSensorData
    (getPOI example_globals (RangingData frame_far_corner) example_clock example_POI) = true /\
  on_grid example_globals
    (POI.y (getPOI example_globals (RangingData frame_far_corner) example_clock example_POI))
    (POI.x (getPOI example_globals (RangingData frame_far_corner) example_clock example_POI)).
Proof.
  destruct (getPOI_detection_fields example_globals (RangingData frame_far_corner)
              example_clock example_POI) as (H1 & H2 & _).
  - reflexivity.
  - split; [exact H1 | exact H2].
Defined.


Lemma prettyPrint_lines_witness :
  exists out',
    prettyPrint 9 example_globals (calibration example_globals) [] = Some (8 + 1, out') /\
    newlines out' = 0 + (8 + 1) /\
    printed_data out' =
      [] ++ flat_map (fun r => map (fun x => aget (calibration example_globals) (x + r * 8))
                                   (down_from 8 7))
                     (up_from 8 0).
Proof.
  apply (prettyPrint_lines 9 example_globals (calibration example_globals) []).
  - simpl. lia.
  - simpl. lia.
Defined.

Lemma processMeasuredData_valid_iff_witness :
  aget (processMeasuredData example_globals frame_near_origin (replicate 64 0)) 0 > 0 <->
  good_status (aget (target_status frame_near_origin) 0) = true /\
  1 <= aget (distance_mm frame_near_origin) 0 <= MAX_CALIBRATION /\
  aget (distance_mm frame_near_origin) 0 < aget (calibration example_globals) 0 - NOISE_RANGE.
Proof.
  apply (processMeasuredData_valid_iff example_globals frame_near_origin (replicate 64 0) 0).
  - reflexivity.
  - simpl. lia.
  - vm_compute. split; discriminate.
Defined.

Lemma getPOI_no_intrusion_witness :
  POI.hasDetection
    (getPOI example_globals (RangingData frame_empty) example_clock example_POI) = false.
Proof.
  apply (getPOI_no_intrusion example_globals frame_empty example_clock example_POI).
  intros i Hi. unfold frame_empty, example_frame, example_globals.
  cbn [distance_mm calibration fold_left].
  destruct (aget_replicate 64 1000 i) as [-> | ->];
    unfold MAX_CALIBRATION, NOISE_RANGE; lia.
Defined.

Lemma calibrated_scene_no_detection_witness :
  POI.hasDetection
    (getPOI {| calibration := initTOF_calibration frame_near_origin (replicate 64 0);
               imageResolution := 64;
               imageWidth := 8 |}
       (RangingData frame_near_origin) example_clock example_POI) = false.
Proof.
  apply (calibrated_scene_no_detection frame_near_origin frame_near_origin (replicate 64 0)
           64 8 example_clock DebounceState_init example_POI).
  - reflexivity.
  - lia.
  - reflexivity.
Defined.

Lemma idle_cycles_transparent_witness :
  fst (run example_globals
         ([(RangingData frame_near_origin, example_clock)]
            ++ [(DataNotReady, example_clock); (RangingFailed, example_clock)]
            ++ [(RangingData frame_near_origin, example_clock)])
         DebounceState_init example_POI) =
  fst (run example_globals
         ([(RangingData frame_near_origin, example_clock)]
            ++ [(RangingData frame_near_origin, example_clock)])
         DebounceState_init example_POI).
Proof.
  apply (idle_cycles_transparent example_globals
           [(RangingData frame_near_origin, example_clock)]
           [(DataNotReady, example_clock); (RangingFailed, example_clock)]
           [(RangingData frame_near_origin, example_clock)]
           DebounceState_init example_POI).
  repeat constructor.
Defined.

Lemma processMeasuredData_writes_witness :
  length (processMeasuredData
            {| calibration := replicate 64 1000; imageResolution := 16; imageWidth := 4 |}
            frame_near_origin (replicate 64 7)) = 64%nat.
Proof.
  apply (processMeasuredData_writes
           {| calibration := replicate 64 1000; imageResolution := 16; imageWidth := 4 |}
           frame_near_origin (replicate 64 7)).
  simpl. lia.
Defined.
